(** * GoTutor: the move normaliser, the analysis stage and the event loop

    A shallow embedding of [enhanced_go_tutor.py] and
    [real_ogs_connector.py].  Python integers are [Z], Python strings are
    [string] (ASCII text), JSON objects are [gmap string pyval], and the
    calls to the [random] module read an explicit entropy tape. *)

From stdpp Require Import base option list sorting strings pretty gmap.
From Stdlib Require Import Ascii ZArith QArith Lia.

Local Open Scope Z_scope.

(** ** The Python builtins the sources rely on *)

Module Py.

(** What a Python call produces: a value, or a raised exception. *)
Inductive exn :=
| ValueError | TypeError | AttributeError | JSONDecodeError
| ConnectionClosed | OtherError.

Inductive result (A : Type) :=
| Ok (a : A)
| Raise (e : exn).
Global Arguments Ok {A} a.
Global Arguments Raise {A} e.

(** [s.upper()] on ASCII text. *)
Definition upper_char (c : ascii) : ascii :=
  let n := nat_of_ascii c in
  if ((97 <=? n) && (n <=? 122))%nat then ascii_of_nat (n - 32) else c.

Fixpoint upper (s : string) : string :=
  match s with
  | EmptyString => EmptyString
  | String c r => String (upper_char c) (upper r)
  end.

(** [s[i:]] and [s[:n]] for non-negative bounds. *)
Fixpoint str_drop (i : nat) (s : string) : string :=
  match i, s with
  | O, _ => s
  | S i', String _ r => str_drop i' r
  | S _, EmptyString => EmptyString
  end.

Fixpoint str_take (n : nat) (s : string) : string :=
  match n, s with
  | S n', String c r => String c (str_take n' r)
  | _, _ => EmptyString
  end.

(** [s[i]] for an index inside the string. *)
Definition str_at (i : nat) (s : string) : string := str_take 1 (str_drop i s).

(** [sub in s]: substring test, and [s.index(sub)] when it holds. *)
Definition str_index (sub s : string) : option nat := String.index 0 sub s.
Definition str_in (sub s : string) : bool := bool_decide (is_Some (str_index sub s)).

(** [str(n)] for an integer: its decimal numeral. *)
Definition str_of_int (n : Z) : string := pretty n.

(** [int(s)] in base 10 on ASCII text: surrounding white space is
    stripped, one sign is allowed, and single underscores may separate
    digits.  [None] stands for [ValueError]. *)
Definition is_space (c : ascii) : bool :=
  let n := nat_of_ascii c in
  (((9 <=? n) && (n <=? 13)) || ((28 <=? n) && (n <=? 32)))%nat.

Definition is_digit (c : ascii) : bool :=
  let n := nat_of_ascii c in ((48 <=? n) && (n <=? 57))%nat.

Definition digit_val (c : ascii) : Z := Z.of_nat (nat_of_ascii c) - 48.

(** The strings made of decimal digits only. *)
Fixpoint digits_only (s : string) : bool :=
  match s with
  | EmptyString => true
  | String c r => is_digit c && digits_only r
  end.

Fixpoint lstrip (s : string) : string :=
  match s with
  | String c r => if is_space c then lstrip r else s
  | EmptyString => EmptyString
  end.

Fixpoint rstrip (s : string) : string :=
  match s with
  | EmptyString => EmptyString
  | String c r =>
      match rstrip r with
      | EmptyString => if is_space c then EmptyString else String c EmptyString
      | r' => String c r'
      end
  end.

Definition strip (s : string) : string := rstrip (lstrip s).

Fixpoint int_digits (acc : Z) (after_digit : bool) (s : string) : option Z :=
  match s with
  | EmptyString => if after_digit then Some acc else None
  | String c r =>
      if is_digit c then int_digits (10 * acc + digit_val c) true r
      else if Ascii.eqb c "_"%char && after_digit then int_digits acc false r
      else None
  end.

Definition int_of_str (s : string) : option Z :=
  match strip s with
  | String "-"%char r => Z.opp <$> int_digits 0 false r
  | String "+"%char r => int_digits 0 false r
  | t => int_digits 0 false t
  end.

End Py.

(** ** enhanced_go_tutor.py: moves and coordinates *)

Inductive GamePhase := OPENING | MIDDLE_GAME | ENDGAME.

Record Move := mkMove {
  x : Z;
  y : Z;
  color : string;
  move_number : Z
}.

Definition letters : string := "ABCDEFGHJKLMNOPQRST".

(** [Move.to_coords] *)
Definition to_coords (self : Move) : string :=
  if bool_decide (0 <= x self <= 18) then
    Py.str_at (Z.to_nat (x self)) letters +:+ Py.str_of_int (y self + 1)
  else
    "(" +:+ Py.str_of_int (x self) +:+ "," +:+ Py.str_of_int (y self) +:+ ")".

(** [EnhancedGoTutor._parse_coordinate]: [int] may raise, and nothing in
    the method catches it. *)
Definition _parse_coordinate (coord color : string) (move_num : Z)
  : Py.result Move :=
  if bool_decide (2 <= String.length coord)%nat then
    let letter := Py.upper (Py.str_at 0 coord) in
    match Py.int_of_str (Py.str_drop 1 coord) with
    | None => Py.Raise Py.ValueError
    | Some number =>
        let x := if Py.str_in letter letters
                 then match Py.str_index letter letters with
                      | Some i => Z.of_nat i
                      | None => 0
                      end
                 else 0 in
        let y := number - 1 in
        Py.Ok (mkMove x y color move_num)
    end
  else Py.Ok (mkMove 3 3 color move_num).

(** ** enhanced_go_tutor.py: the joseki catalogue *)

Record Joseki := mkJoseki {
  name : string;
  moves : list string;
  description : string;
  phase : string;
  advice : string;
  variations : list string
}.

(** The dictionary [check_joseki] returns: the record's own entries and
    the three keys it adds. *)
Record JosekiMatch := mkJosekiMatch {
  joseki : Joseki;
  matched_moves : Z;
  total_moves : Z;
  is_complete : bool
}.

Record JosekiDatabase := mkJosekiDatabase { josekis : list Joseki }.

Definition _load_joseki_patterns : list Joseki :=
  [ mkJoseki "3-4 Point Approach" ["D4"; "Q16"; "R14"; "Q14"]
      "Standard approach to 3-4 point" "opening"
      "This creates influence while maintaining corner territory"
      ["R15"; "Q15"; "R17"];
    mkJoseki "Diagonal Fuseki" ["D4"; "Q16"; "D16"; "Q4"]
      "Balanced diagonal opening" "opening"
      "Creates balanced influence in all corners"
      ["R17"; "D17"; "C3"];
    mkJoseki "Chinese Opening" ["D4"; "Q16"; "Q4"; "C6"]
      "Chinese fuseki setup" "opening"
      "Emphasizes side territory and influence"
      ["C10"; "F3"; "R6"];
    mkJoseki "Pincer Attack" ["D4"; "Q16"; "R14"; "R12"]
      "Pincer against approach move" "opening"
      "Creates pressure on opponent's stone"
      ["R11"; "R13"; "Q12"];
    mkJoseki "Knight's Move Enclosure" ["D4"; "F3"]
      "Secure corner territory" "opening"
      "Solid corner development, good for beginners"
      ["C6"; "E3"; "C3"] ].

Definition JosekiDatabase__init__ : JosekiDatabase :=
  mkJosekiDatabase _load_joseki_patterns.

(** [len(l)], [range(n)] (empty when [n <= 0]) and [l[i:j]] for
    [0 <= i <= j]. *)
Definition len {A} (l : list A) : Z := Z.of_nat (length l).
Definition py_range (n : Z) : list nat := seq 0 (Z.to_nat n).
Definition slice {A} (l : list A) (i j : nat) : list A := take (j - i) (drop i l).

(** The inner [for i in range(...)] of [check_joseki] for one record:
    the first offset whose slice passes the test returns. *)
Fixpoint check_offsets (j : Joseki) (recent_moves : list string)
    (offsets : list nat) : option JosekiMatch :=
  match offsets with
  | [] => None
  | i :: rest =>
      let joseki_moves := moves j in
      let sequence := slice recent_moves i (i + length joseki_moves) in
      if bool_decide (sequence = take (length sequence) joseki_moves) then
        Some (mkJosekiMatch j (len sequence) (len joseki_moves)
                (bool_decide (len sequence = len joseki_moves)))
      else check_offsets j recent_moves rest
  end.

(** The outer [for joseki in self.josekis]. *)
Fixpoint check_records (js : list Joseki) (recent_moves : list string)
    : option JosekiMatch :=
  match js with
  | [] => None
  | j :: rest =>
      match check_offsets j recent_moves
              (py_range (len recent_moves - len (moves j) + 1)) with
      | Some m => Some m
      | None => check_records rest recent_moves
      end
  end.

Definition check_joseki (self : JosekiDatabase) (recent_moves : list string)
    : option JosekiMatch :=
  if bool_decide (len recent_moves < 2) then None
  else check_records (josekis self) recent_moves.

(** ** The [random] module

    Every call reads one word of an entropy tape; the tape is the only
    source of chance, so a property quantified over all tapes covers every
    outcome the generator can produce. *)

Definition tape := nat → N.

Definition Rand (A : Type) : Type := tape → A * tape.

Global Instance rand_ret : MRet Rand := λ A a g, (a, g).
Global Instance rand_bind : MBind Rand :=
  λ A B f m g, let '(a, g') := m g in f a g'.

Definition next_word : Rand N := λ g, (g 0%nat, λ n, g (S n)).

(** [random.random()]: a fraction of [2^53] in the interval [0, 1). *)
Definition random_random : Rand Q :=
  w ← next_word;
  mret (Qmake (Z.of_N (w mod 2 ^ 53)) (2 ^ 53)).

(** [random.randint(a, b)] for [a <= b]: an integer of [a..b]. *)
Definition random_randint (a b : Z) : Rand Z :=
  w ← next_word;
  mret (a + Z.of_N w mod (b - a + 1)).

(** [u < p] on the fractions drawn. *)
Definition Qltb (u p : Q) : bool := negb (Qle_bool p u).

(** ** enhanced_go_tutor.py: the pattern recogniser *)

Record Pattern := mkPattern {
  pattern_name : string;
  pattern_description : string;
  positions : list (Z * Z);
  colors : list string;
  pattern_advice : string;
  difficulty : string
}.

Record PatternRecognizer := mkPatternRecognizer {
  tactical_patterns : list Pattern;
  strategic_patterns : list Pattern
}.

Definition _load_tactical_patterns : list Pattern :=
  [ mkPattern "Ladder" "Sequence of atari moves"
      [(0, 0); (1, 1); (0, 2); (1, 3)] ["black"; "white"; "black"; "white"]
      "Check if the ladder works before playing" "beginner";
    mkPattern "Net" "Loose containment of stones"
      [(0, 0); (2, 1); (1, 2)] ["white"; "black"; "black"]
      "The net prevents escape while maintaining connection" "intermediate";
    mkPattern "Snapback" "Sacrifice to capture back"
      [(0, 0); (1, 0); (0, 1)] ["black"; "white"; "white"]
      "Look for snapback opportunities after captures" "intermediate";
    mkPattern "Bamboo Joint" "Strong connection shape"
      [(0, 0); (2, 0); (1, 1)] ["black"; "black"; "black"]
      "Bamboo joint is nearly unbreakable" "beginner";
    mkPattern "Tiger's Mouth" "Powerful capturing shape"
      [(0, 0); (1, 0); (0, 1); (2, 1)] ["black"; "black"; "black"; "black"]
      "Tiger's mouth threatens multiple cuts" "intermediate" ].

Definition _load_strategic_patterns : list Pattern :=
  [ mkPattern "Moyo Formation" "Large territorial framework"
      [(3, 3); (6, 9); (9, 6)] ["black"; "black"; "black"]
      "Build moyo with loose stones, then invite invasion" "advanced";
    mkPattern "Invasion Point" "Weak point for invasion"
      [(3, 3); (6, 3); (9, 3)] ["white"; "empty"; "white"]
      "The 3-3 point is often a good invasion" "intermediate";
    mkPattern "Extension Base" "Safe development from stones"
      [(0, 0); (3, 0)] ["black"; "black"]
      "Two-space extension creates good base" "beginner" ].

Definition PatternRecognizer__init__ : PatternRecognizer :=
  mkPatternRecognizer _load_tactical_patterns _load_strategic_patterns.

(** The board dictionary of [_create_board_state]: point to colour. *)
Abbreviation board := (gmap (Z * Z) string).

(** One entry of the list [find_patterns] returns; only tactical entries
    carry a ["location"]. *)
Record FoundPattern := mkFoundPattern {
  type : string;
  pattern : Pattern;
  location : option string;
  urgency : string
}.

Definition _pattern_matches_near_move (board_state : board) (move : Move)
    (p : Pattern) : Rand bool :=
  u ← random_random; mret (Qltb u (3 # 10)).

Definition _strategic_pattern_present (board_state : board) (p : Pattern)
    : Rand bool :=
  u ← random_random; mret (Qltb u (2 # 10)).

(** The first loop of [find_patterns], over the tactical catalogue. *)
Fixpoint find_tactical (board_state : board) (recent_move : Move)
    (ps : list Pattern) (found_patterns : list FoundPattern)
    : Rand (list FoundPattern) :=
  match ps with
  | [] => mret found_patterns
  | p :: rest =>
      hit ← _pattern_matches_near_move board_state recent_move p;
      find_tactical board_state recent_move rest
        (if hit : bool then
           found_patterns ++
             [mkFoundPattern "tactical" p (Some (to_coords recent_move))
                (if bool_decide (difficulty p = "beginner")
                 then "high" else "medium")]
         else found_patterns)
  end.

(** The second loop, over the strategic catalogue. *)
Fixpoint find_strategic (board_state : board) (ps : list Pattern)
    (found_patterns : list FoundPattern) : Rand (list FoundPattern) :=
  match ps with
  | [] => mret found_patterns
  | p :: rest =>
      hit ← _strategic_pattern_present board_state p;
      find_strategic board_state rest
        (if hit : bool then
           found_patterns ++ [mkFoundPattern "strategic" p None "medium"]
         else found_patterns)
  end.

Definition find_patterns (self : PatternRecognizer) (board_state : board)
    (recent_move : Move) : Rand (list FoundPattern) :=
  found ← find_tactical board_state recent_move (tactical_patterns self) [];
  find_strategic board_state (strategic_patterns self) found.

(** ** enhanced_go_tutor.py: the move analyser *)

Definition _is_corner_area (move : Move) : bool :=
  bool_decide ((x move <= 5 ∨ x move >= 13) ∧ (y move <= 5 ∨ y move >= 13)).

Definition _is_center_area (move : Move) : bool :=
  bool_decide (7 <= x move <= 11 ∧ 7 <= y move <= 11).

Definition _is_edge_area (move : Move) : bool :=
  bool_decide (x move <= 2 ∨ x move >= 16 ∨ y move <= 2 ∨ y move >= 16).

Definition GamePhase_eqb (a b : GamePhase) : bool :=
  match a, b with
  | OPENING, OPENING | MIDDLE_GAME, MIDDLE_GAME | ENDGAME, ENDGAME => true
  | _, _ => false
  end.

Definition _estimate_territorial_value (move : Move) (phase : GamePhase)
    : Rand Z :=
  let base_value := 5 in
  let base_value :=
    if GamePhase_eqb phase OPENING && _is_corner_area move
    then base_value + 2 else base_value in
  let base_value :=
    if GamePhase_eqb phase ENDGAME && _is_edge_area move
    then base_value + 3 else base_value in
  jitter ← random_randint (-2) 2;
  mret (Z.min 10 (Z.max 1 (base_value + jitter))).

Definition _estimate_influence_value (move : Move) (phase : GamePhase)
    : Rand Z :=
  let base_value := 5 in
  let base_value :=
    if _is_center_area move then base_value + 3 else base_value in
  let base_value :=
    if GamePhase_eqb phase OPENING || GamePhase_eqb phase MIDDLE_GAME
    then base_value + 1 else base_value in
  jitter ← random_randint (-2) 2;
  mret (Z.min 10 (Z.max 1 (base_value + jitter))).

(** ** enhanced_go_tutor.py: the tutor *)

Record EnhancedGoTutor := mkEnhancedGoTutor {
  joseki_db : JosekiDatabase;
  pattern_recognizer : PatternRecognizer;
  game_history : list Move;
  move_count : Z
}.

Definition EnhancedGoTutor__init__ : EnhancedGoTutor :=
  mkEnhancedGoTutor JosekiDatabase__init__ PatternRecognizer__init__ [] 0.

(** [add_move]: when [_parse_coordinate] raises, the tutor is unchanged. *)
Definition add_move (self : EnhancedGoTutor) (coordinate color : string)
    : Py.result (EnhancedGoTutor * Move) :=
  match _parse_coordinate coordinate color (move_count self + 1) with
  | Py.Raise e => Py.Raise e
  | Py.Ok move =>
      Py.Ok (mkEnhancedGoTutor (joseki_db self) (pattern_recognizer self)
               (game_history self ++ [move]) (move_count self + 1), move)
  end.

Definition _determine_phase (self : EnhancedGoTutor) : GamePhase :=
  if bool_decide (move_count self < 30) then OPENING
  else if bool_decide (move_count self < 120) then MIDDLE_GAME
  else ENDGAME.

Definition _create_board_state (self : EnhancedGoTutor) : board :=
  foldl (λ b move, <[(x move, y move) := color move]> b) ∅ (game_history self).

(** ** real_ogs_connector.py: the values [json.loads] builds

    JSON numbers are taken to be integers, as the coordinates and
    identifiers of the service are; fractional numbers are outside the
    model. *)

#[warnings="-register-all"]
Inductive pyval :=
| PNone
| PBool (b : bool)
| PInt (n : Z)
| PStr (s : string)
| PList (l : list pyval)
| PDict (d : gmap string pyval).

(** [d.get(k, default)] *)
Definition dict_get (d : gmap string pyval) (k : string) (default : pyval)
    : pyval :=
  from_option id default (d !! k).

(** The integer behind a value that the comparison [0 <= v] accepts;
    [bool] is a subtype of [int].  [None] stands for [TypeError]. *)
Definition as_int (v : pyval) : option Z :=
  match v with
  | PInt n => Some n
  | PBool b => Some (if b then 1 else 0)
  | _ => None
  end.

(** [len(v)]; [None] stands for [TypeError]. *)
Definition py_len (v : pyval) : option Z :=
  match v with
  | PStr s => Some (Z.of_nat (String.length s))
  | PList l => Some (len l)
  | PDict d => Some (Z.of_nat (size d))
  | _ => None
  end.

Fixpoint chars (s : string) : list pyval :=
  match s with
  | EmptyString => []
  | String c r => PStr (String c EmptyString) :: chars r
  end.

(** The elements [enumerate(v)] walks through: the items of a list, the
    characters of a string, the keys of a dictionary (in the order of the
    map here; they are strings, which [_parse_moves] skips in any order). *)
Definition py_iter (v : pyval) : option (list pyval) :=
  match v with
  | PStr s => Some (chars s)
  | PList l => Some l
  | PDict d => Some ((λ kv, PStr kv.1) <$> map_to_list d)
  | _ => None
  end.

(** Truth value of a JSON value. *)
Definition truthy (v : pyval) : bool :=
  match v with
  | PNone => false
  | PBool b => b
  | PInt n => negb (n =? 0)
  | PStr s => negb (bool_decide (s = ""))
  | PList l => negb (bool_decide (length l = 0%nat))
  | PDict d => negb (bool_decide (size d = 0%nat))
  end.

(** [a or b] *)
Definition py_or (a b : pyval) : pyval := if truthy a then a else b.

(** ** real_ogs_connector.py: [OGSGameParser] *)

Module Parsed.
(** A dictionary of the list [_parse_moves] returns.  The colour is
    whatever the payload carried under ["color"]. *)
Record t := mk {
  coordinate : string;
  color : pyval;
  move_number : Z;
  x : Z;   (* the integer value of the raw coordinate *)
  y : Z
}.
End Parsed.

Definition default_color (i : nat) : pyval :=
  PStr (if (Z.of_nat i mod 2 =? 0) then "black" else "white").

(** The [if]/[elif]/[else] at the head of the loop of [_parse_moves]:
    the values bound to [x], [y] and [color], or [None] for [continue]. *)
Definition move_fields (i : nat) (move_data : pyval)
    : option (pyval * pyval * pyval) :=
  match move_data with
  | PList (vx :: vy :: _) => Some (vx, vy, default_color i)
  | PDict d =>
      Some (dict_get d "x" (PInt (-1)), dict_get d "y" (PInt (-1)),
            dict_get d "color" (default_color i))
  | _ => None
  end.

(** The body of the loop for the entry at index [i]: [Some] for the
    dictionary it appends, [None] when the entry is skipped, by
    [continue], by the range test, or by the handler of the [TypeError]
    that comparing a non-integer coordinate raises. *)
Definition parse_move (i : nat) (move_data : pyval) : option Parsed.t :=
  '(vx, vy, vcolor) ← move_fields i move_data;
  px ← as_int vx;
  if bool_decide (0 <= px <= 18) then
    py ← as_int vy;
    if bool_decide (0 <= py <= 18) then
      let coord := Py.str_at (Z.to_nat px) letters
                     +:+ Py.str_of_int (py + 1) in
      Some (Parsed.mk coord vcolor (Z.of_nat i + 1) px py)
    else None
  else None.

(** [for i, move_data in enumerate(moves_data)], from index [i] on. *)
Fixpoint parse_moves_from (i : nat) (moves_data : list pyval)
    : list Parsed.t :=
  match moves_data with
  | [] => []
  | move_data :: rest =>
      match parse_move i move_data with
      | Some m => m :: parse_moves_from (S i) rest
      | None => parse_moves_from (S i) rest
      end
  end.

Definition _parse_moves (moves_data : list pyval) : list Parsed.t :=
  parse_moves_from 0 moves_data.

Module GameInfo.
(** The dictionary [parse_game_state] returns. *)
Record t := mk {
  game_id : string;
  board_size : pyval;
  move_count : Z;
  current_phase : pyval;
  players : list (pyval * pyval);
  time_control : pyval;
  moves : list Parsed.t
}.
End GameInfo.

(** Keys of the [players] dictionary: equality of hashable values
    ([True == 1]), and [players[k] = v]. *)
Definition key_eqb (a b : pyval) : bool :=
  match a, b with
  | PStr s, PStr t => bool_decide (s = t)
  | PNone, PNone => true
  | _, _ => match as_int a, as_int b with
            | Some m, Some n => m =? n
            | _, _ => false
            end
  end.

Definition hashable (v : pyval) : bool :=
  match v with
  | PList _ | PDict _ => false
  | _ => true
  end.

Fixpoint dict_set (d : list (pyval * pyval)) (k v : pyval)
    : list (pyval * pyval) :=
  match d with
  | [] => [(k, v)]
  | (k', v') :: rest =>
      if key_eqb k' k then (k', v) :: rest else (k', v') :: dict_set rest k v
  end.

Section Parser.

(** [str(v)] on the values of a payload. *)
Variable str_of : pyval → string.

(** The loop over [["black", "white"]] when the players field is a
    dictionary. *)
Definition players_of_dict (player_data : gmap string pyval)
    : list (pyval * pyval) :=
  foldl (λ players color,
           match player_data !! color with
           | Some (PDict player_info) =>
               dict_set players (PStr color)
                 (dict_get player_info "username" (PStr ("Player " +:+ color)))
           | Some player_info =>
               dict_set players (PStr color) (PStr (str_of player_info))
           | None => players
           end)
        [] ["black"; "white"].

(** The loop over the records when the players field is a list; [None]
    stands for the [TypeError] of an unhashable colour. *)
Fixpoint players_of_list (player_data : list pyval)
    (players : list (pyval * pyval)) : option (list (pyval * pyval)) :=
  match player_data with
  | [] => Some players
  | PDict player :: rest =>
      let color := py_or (dict_get player "color" PNone)
                         (dict_get player "colour" PNone) in
      let username := py_or (dict_get player "username" PNone)
                            (dict_get player "name" PNone) in
      if truthy color && truthy username then
        if hashable color
        then players_of_list rest (dict_set players color username)
        else None
      else players_of_list rest players
  | _ :: rest => players_of_list rest players
  end.

Definition _extract_players (game_data : gmap string pyval)
    : option (list (pyval * pyval)) :=
  players ←
    match game_data !! "players" with
    | Some (PDict player_data) => Some (players_of_dict player_data)
    | Some (PList player_data) => players_of_list player_data []
    | _ => Some []
    end;
  Some (match players with
        | [] => [(PStr "black", PStr "Black Player");
                 (PStr "white", PStr "White Player")]
        | _ => players
        end).

(** [parse_game_state]: [None] is the value returned when anything in
    the [try] block raises. *)
Definition parse_game_state (game_data : pyval) : option GameInfo.t :=
  match game_data with
  | PDict d =>
      let raw_moves := dict_get d "moves" (PList []) in
      n ← py_len raw_moves;
      players ← _extract_players d;
      moves_data ← py_iter raw_moves;
      Some (GameInfo.mk (str_of (dict_get d "id" (PStr "unknown")))
              (dict_get d "width" (PInt 19)) n
              (dict_get d "phase" (PStr "playing")) players
              (dict_get d "time_control" (PDict ∅))
              (_parse_moves moves_data))
  | _ => None
  end.

(** ** real_ogs_connector.py: [LiveOGSTutor] *)

Record LiveOGSTutor := mkLiveOGSTutor {
  current_game_id : option string;
  last_move_count : Z;
  tutoring_interval : Z
}.

Definition LiveOGSTutor__init__ : LiveOGSTutor := mkLiveOGSTutor None 0 5.

Definition set_tutoring_interval (self : LiveOGSTutor) (interval : Z)
    : LiveOGSTutor :=
  mkLiveOGSTutor (current_game_id self) (last_move_count self) interval.

Definition _should_provide_tutoring (self : LiveOGSTutor)
    (current_move_count : Z) : bool :=
  let move_difference := current_move_count - last_move_count self in
  if bool_decide (move_difference >= tutoring_interval self) then true
  else if bool_decide (current_move_count <= 5) then true
  else false.

(** [_handle_game_update]: the tutor afterwards, and the moves handed to
    [_provide_tutoring] when the analysis pass runs.  [_provide_tutoring]
    catches what it raises, so the assignment after it is always reached. *)
Definition _handle_game_update (self : LiveOGSTutor) (game_data : pyval)
    (event_type : pyval) : LiveOGSTutor * option (list Parsed.t) :=
  match parse_game_state game_data with
  | None => (self, None)
  | Some game_state =>
      let moves := GameInfo.moves game_state in
      let current_move_count := len moves in
      let tutored :=
        if _should_provide_tutoring self current_move_count
        then Some moves else None in
      (mkLiveOGSTutor (current_game_id self) current_move_count
         (tutoring_interval self), tutored)
  end.

(** A session: the updates handled one after the other, with the passes
    they triggered. *)
Fixpoint handle_updates (self : LiveOGSTutor) (events : list pyval)
    : LiveOGSTutor * list bool :=
  match events with
  | [] => (self, [])
  | game_data :: rest =>
      let '(self', tutored) :=
        _handle_game_update self game_data (PStr "game/gamedata") in
      let '(self'', passes) := handle_updates self' rest in
      (self'', bool_decide (is_Some tutored) :: passes)
  end.

End Parser.

(** ** real_ogs_connector.py: [RealOGSConnector.monitor_game] *)

(** A frame the websocket yields: text, or the bytes of a binary frame. *)
Inductive ws_message :=
| TextFrame (s : string)
| BinaryFrame (b : string).

(** The calls to [logger] of [monitor_game], by the line that makes them. *)
Inductive log_entry :=
| LogMonitoring (game_id : string)      (* info: Monitoring game ... *)
| LogNoWebsocket                        (* error: No websocket connection *)
| LogSubscribed (game_id : string)      (* info: Subscribed to game ... *)
| LogEvent (event_type : pyval)         (* info: Event: ... *)
| LogGameUpdate                         (* info: Game update detected! *)
| LogLimit                              (* info: Received 100+ messages *)
| LogNonJSON (head : string)            (* debug: Non-JSON message: ... *)
| LogProcessingError (e : Py.exn)       (* error: Error processing message *)
| LogConnectionClosed                   (* error: Websocket connection closed *)
| LogMonitorError (e : Py.exn).         (* error: Error monitoring game *)

Definition quote : string := String (ascii_of_nat 34) EmptyString.

Definition game_connect_msg (game_id : string) : string :=
  "42[" +:+ quote +:+ "game/connect" +:+ quote +:+ ",{" +:+ quote +:+
  "game_id" +:+ quote +:+ ":" +:+ game_id +:+ "}]".

(** [event_type in ["game/move", "game/gamedata"]] *)
Definition is_game_update (event_type : pyval) : bool :=
  match event_type with
  | PStr s => bool_decide (s = "game/move") || bool_decide (s = "game/gamedata")
  | _ => false
  end.

Section Monitor.

(** [json.loads]; [None] stands for [json.JSONDecodeError]. *)
Variable json_loads : string → option pyval.

(** The world the coroutines act on: [websocket.send] and the callback
    change it and may raise. *)
Context {W : Type}.
Variable send : string → W → W * option Py.exn.
Variable callback : pyval → pyval → W → W * option Py.exn.

Record loop_state := mkLoop {
  message_count : Z;
  world : W;
  log : list log_entry
}.

Definition logged (st : loop_state) (e : log_entry) : loop_state :=
  mkLoop (message_count st) (world st) (log st ++ [e]).

Definition acted (st : loop_state) (r : W * option Py.exn)
    : loop_state * Py.result unit :=
  (mkLoop (message_count st) r.1 (log st),
   match r.2 with Some e => Py.Raise e | None => Py.Ok () end).

(** The statements of the inner [try] block before the message limit. *)
Definition dispatch (message : ws_message) (st : loop_state)
    : loop_state * Py.result unit :=
  match message with
  | BinaryFrame _ => (st, Py.Raise Py.TypeError)
  | TextFrame message =>
      if String.prefix "42" message then
        match json_loads (Py.str_drop 2 message) with
        | None => (st, Py.Raise Py.JSONDecodeError)
        | Some (PList (event_type :: event_data :: _)) =>
            let st := logged st (LogEvent event_type) in
            if is_game_update event_type then
              let st := logged st LogGameUpdate in
              acted st (callback event_data event_type (world st))
            else (st, Py.Ok ())
        | Some _ => (st, Py.Ok ())
        end
      else if String.prefix "2" message then
        acted st (send "3" (world st))
      else (st, Py.Ok ())
  end.

Definition head50 (message : ws_message) : string :=
  match message with
  | TextFrame s => Py.str_take 50 s
  | BinaryFrame b => Py.str_take 50 b
  end.

(** One iteration of [async for message in self.websocket]: the state
    afterwards and whether the loop was left by [break]. *)
Definition process_message (message : ws_message) (st : loop_state)
    : loop_state * bool :=
  let st := mkLoop (message_count st + 1) (world st) (log st) in
  match dispatch message st with
  | (st, Py.Ok _) =>
      if bool_decide (message_count st > 100)
      then (logged st LogLimit, true)
      else (st, false)
  | (st, Py.Raise Py.JSONDecodeError) =>
      (logged st (LogNonJSON (head50 message)), false)
  | (st, Py.Raise e) => (logged st (LogProcessingError e), false)
  end.

Fixpoint monitor_loop (inbox : list ws_message) (st : loop_state)
    : loop_state * bool :=
  match inbox with
  | [] => (st, false)
  | message :: rest =>
      let '(st', stop) := process_message message st in
      if stop then (st', true) else monitor_loop rest st'
  end.

(** [monitor_game]: [inbox] holds the frames the connection delivers and
    [ending] what the iterator raises once they are consumed.  The
    coroutine returns [None] on every path; its effects are the world and
    the log it leaves. *)
Definition monitor_game (websocket : option W) (game_id : string)
    (inbox : list ws_message) (ending : option Py.exn)
    : option W * list log_entry :=
  let log0 := [LogMonitoring game_id] in
  match websocket with
  | None => (None, log0 ++ [LogNoWebsocket])
  | Some w =>
      let closed (e : Py.exn) :=
        match e with
        | Py.ConnectionClosed => LogConnectionClosed
        | _ => LogMonitorError e
        end in
      match send (game_connect_msg game_id) w with
      | (w, Some e) => (Some w, log0 ++ [closed e])
      | (w, None) =>
          let '(st, stop) :=
            monitor_loop inbox (mkLoop 0 w (log0 ++ [LogSubscribed game_id])) in
          (Some (world st),
           match stop, ending with
           | false, Some e => log st ++ [closed e]
           | _, _ => log st
           end)
      end
  end.

End Monitor.

(** ** Vocabulary of the properties *)

(** The phases in the order a game goes through them. *)
Definition phase_rank (p : GamePhase) : Z :=
  match p with
  | OPENING => 0
  | MIDDLE_GAME => 1
  | ENDGAME => 2
  end.



(** Two tapes with the same first [k] words. *)
Definition agree (k : nat) (g1 g2 : tape) : Prop :=
  ∀ i, (i < k)%nat → g1 i = g2 i.

(** The tape whose first eight words make every draw succeed and whose
    later words make every draw fail. *)
Definition lucky_then_unlucky : tape :=
  λ n, if (n <? 8)%nat then 0%N else (2 ^ 53 - 1)%N.

(** The payload of a game whose move list holds [k] stones. *)
Definition game_with_moves (k : nat) : pyval :=
  PDict {[ "moves" := PList (replicate k (PList [PInt 3; PInt 3])) ]}.

(** The level of each call to [logger]. *)
Inductive log_level := DEBUG | INFO | ERROR.

Definition level (e : log_entry) : log_level :=
  match e with
  | LogNonJSON _ => DEBUG
  | LogNoWebsocket | LogProcessingError _ | LogConnectionClosed
  | LogMonitorError _ => ERROR
  | _ => INFO
  end.

(** ** enhanced_go_tutor.py: the rest of the move analyser *)

(** [random.choice(options)] for a non-empty list; [default] only makes
    the function total. *)
Definition random_choice {A} (options : list A) (default : A) : Rand A :=
  w ← next_word;
  mret (nth (N.to_nat w mod length options) options default).

Record MoveAnalyzer := mkMoveAnalyzer { move_types : gmap string string }.

Definition MoveAnalyzer__init__ : MoveAnalyzer :=
  mkMoveAnalyzer (list_to_map
    [ ("corner", "Corner moves secure territory early");
      ("side", "Side moves balance territory and influence");
      ("center", "Center moves emphasize fighting and influence");
      ("approach", "Approach moves put pressure on opponent corners");
      ("extension", "Extensions create stable groups");
      ("invasion", "Invasions reduce opponent territory");
      ("attack", "Attacking moves create pressure");
      ("defense", "Defensive moves protect your groups");
      ("connection", "Connection moves link your stones");
      ("cut", "Cutting moves separate opponent stones") ]).

Definition _classify_move (move : Move) (board_state : board)
    (phase : GamePhase) : Rand string :=
  if bool_decide ((x move <= 5 ∨ x move >= 13) ∧ (y move <= 5 ∨ y move >= 13))
  then mret "corner"
  else if bool_decide (7 <= x move <= 11 ∧ 7 <= y move <= 11)
  then mret "center"
  else match phase with
       | OPENING => random_choice ["approach"; "extension"; "corner"] ""
       | MIDDLE_GAME =>
           random_choice ["attack"; "defense"; "invasion"; "connection"] ""
       | ENDGAME => random_choice ["defense"; "territorial"; "endgame"] ""
       end.

(** The table of [_rate_for_phase], one row per phase. *)
Definition appropriateness (phase : GamePhase) : gmap string string :=
  match phase with
  | OPENING =>
      list_to_map [ ("corner", "excellent"); ("approach", "good");
                    ("extension", "good"); ("center", "questionable");
                    ("invasion", "premature") ]
  | MIDDLE_GAME =>
      list_to_map [ ("attack", "excellent"); ("defense", "good");
                    ("invasion", "good"); ("corner", "slow");
                    ("connection", "good") ]
  | ENDGAME =>
      list_to_map [ ("defense", "excellent"); ("territorial", "excellent");
                    ("attack", "risky"); ("center", "usually small") ]
  end.

Definition _rate_for_phase (move_type : string) (phase : GamePhase) : string :=
  default "neutral" (appropriateness phase !! move_type).

Definition _rate_safety (move : Move) (board_state : board) : Rand string :=
  random_choice ["very safe"; "safe"; "neutral"; "risky"; "dangerous"] "".

Definition _generate_learning_points (move : Move) (move_type : string)
    (phase : GamePhase) : list string :=
  let points :=
    if bool_decide (move_type = "corner") then
      [ "Corner moves secure territory and provide a base for development";
        "Consider the direction of your development after corner moves";
        "3-3 invasions are always possible later" ]
    else if bool_decide (move_type = "center") then
      [ "Center moves emphasize influence over territory";
        "Make sure your groups are safe before playing in center";
        "Center stones can be attacked from multiple directions" ]
    else if bool_decide (move_type = "approach") then
      [ "Approach moves put pressure on opponent corners";
        "Be prepared for pincer attacks";
        "Consider your backup plans if opponent resists" ]
    else [] in
  let points :=
    points ++
    [ match phase with
      | OPENING => "In opening, prioritize corner development and good shape"
      | MIDDLE_GAME =>
          "In middle game, look for attacking and defending opportunities"
      | ENDGAME =>
          "In endgame, focus on territorial moves and precise calculation"
      end ] in
  take 3 points.

Module MoveAnalysis.
(** The dictionary [analyze_move] returns. *)
Record t := mk {
  coordinate : string;
  type : string;
  description : string;
  phase_appropriateness : string;
  territorial_value : Z;
  influence_value : Z;
  safety_rating : string;
  learning_points : list string
}.
End MoveAnalysis.

(** [analyze_move]: the draws are made in the order of the source, for
    the type, the two values and the safety rating. *)
Definition analyze_move (self : MoveAnalyzer) (move : Move)
    (board_state : board) (game_phase : GamePhase) : Rand MoveAnalysis.t :=
  move_type ← _classify_move move board_state game_phase;
  territorial ← _estimate_territorial_value move game_phase;
  influence ← _estimate_influence_value move game_phase;
  safety ← _rate_safety move board_state;
  mret (MoveAnalysis.mk (to_coords move) move_type
          (default "Positional move" (move_types self !! move_type))
          (_rate_for_phase move_type game_phase)
          territorial influence safety
          (_generate_learning_points move move_type game_phase)).

(** ** enhanced_go_tutor.py: the analysis of a position *)

Definition _generate_tactical_advice (patterns : list FoundPattern)
    : list string :=
  let advice :=
    omap (λ pattern_info,
            if bool_decide (type pattern_info = "tactical") then
              Some ("🔍 " +:+ pattern_name (pattern pattern_info) +:+ ": "
                      +:+ pattern_advice (pattern pattern_info))
            else None) patterns in
  match advice with
  | [] => ["🔍 Look for tactical opportunities like cuts, connections, and captures"]
  | _ => advice
  end.

Definition _generate_strategic_advice (phase : GamePhase) : list string :=
  match phase with
  | OPENING =>
      [ "📋 Secure corners before playing in the center";
        "📋 Balance territory and influence in your moves";
        "📋 Develop towards the center from secure bases" ]
  | MIDDLE_GAME =>
      [ "⚔️ Look for attacks against weak groups";
        "⚔️ Ensure your own groups have good shape";
        "⚔️ Control key points and territory boundaries" ]
  | ENDGAME =>
      [ "📏 Count territory and find the biggest moves";
        "📏 Look for sente (forcing) endgame sequences";
        "📏 Protect your territory while reducing opponent's" ]
  end.

Definition phase_questions (phase : GamePhase) : list string :=
  match phase with
  | OPENING =>
      [ "How does this move help your overall opening strategy?";
        "Are you balancing territory and influence effectively?";
        "What would you do if opponent approaches your corner?" ]
  | MIDDLE_GAME =>
      [ "Which groups on the board need the most attention?";
        "How would you evaluate the current fighting?";
        "What would happen if opponent plays elsewhere?" ]
  | ENDGAME =>
      [ "Which endgame move is worth the most points?";
        "Are there any sente sequences you should play first?";
        "How secure is your territory?" ]
  end.

Definition _generate_questions (phase : GamePhase)
    (patterns : list FoundPattern) (joseki_info : option JosekiMatch)
    : list string :=
  let questions := take 2 (phase_questions phase) in
  let questions :=
    match patterns with
    | [] => questions
    | _ => questions ++ ["Do you see any tactical patterns in this area?"]
    end in
  match joseki_info with
  | Some info =>
      questions ++ ["Why might the " +:+ name (joseki info)
                      +:+ " be appropriate here?"]
  | None => questions
  end.

Module Guidance.
(** The dictionary [_opening_guidance] returns. *)
Record t := mk {
  move_number : Z;
  game_phase : GamePhase;
  advice : string;
  questions : list string;
  joseki_info : option JosekiMatch;
  patterns_found : list FoundPattern
}.
End Guidance.

Module Analysis.
(** The dictionary [analyze_current_position] returns for a game with
    moves. *)
Record t := mk {
  move_number : Z;
  game_phase : GamePhase;
  recent_move : Move;
  move_analysis : MoveAnalysis.t;
  joseki_info : option JosekiMatch;
  patterns_found : list FoundPattern;
  tactical_advice : list string;
  strategic_advice : list string;
  questions : list string
}.
End Analysis.

Definition _opening_guidance : Guidance.t :=
  Guidance.mk 0 OPENING "Start with corner moves to secure territory"
    ["Which corner appeals to you and why?"] None [].

(** [l[-n:]] for a positive [n]. *)
Definition last_n {A} (n : nat) (l : list A) : list A :=
  drop (length l - n) l.

(** [analyze_current_position].  The analyser is the one [__init__]
    creates; no method replaces it. *)
Definition analyze_current_position (self : EnhancedGoTutor)
    : Rand (Guidance.t + Analysis.t) :=
  match last (game_history self) with
  | None => mret (inl _opening_guidance)
  | Some recent_move =>
      let game_phase := _determine_phase self in
      let recent_coords := to_coords <$> last_n 6 (game_history self) in
      let joseki_info := check_joseki (joseki_db self) recent_coords in
      let board_state := _create_board_state self in
      patterns ← find_patterns (pattern_recognizer self) board_state recent_move;
      move_analysis ←
        analyze_move MoveAnalyzer__init__ recent_move board_state game_phase;
      mret (inr (Analysis.mk (move_count self) game_phase recent_move
                   move_analysis joseki_info patterns
                   (_generate_tactical_advice patterns)
                   (_generate_strategic_advice game_phase)
                   (_generate_questions game_phase patterns joseki_info)))
  end.

(** ** real_ogs_connector.py: the replay of [_provide_tutoring] *)


(** ** Vocabulary of the further properties *)

(** A connection that records what is sent and what the callback is
    given, neither of them raising. *)
Inductive effect :=
| Sent (frame : string)
| Called (event_data event_type : pyval).

Definition record_send (frame : string) (w : list effect)
    : list effect * option Py.exn := (w ++ [Sent frame], None).

Definition record_callback (event_data event_type : pyval) (w : list effect)
    : list effect * option Py.exn := (w ++ [Called event_data event_type], None).

(** The frames [monitor_game] answers with a pong. *)
Definition is_ping (message : ws_message) : bool :=
  match message with
  | TextFrame s => negb (String.prefix "42" s) && String.prefix "2" s
  | BinaryFrame _ => false
  end.

Definition sent_frames (w : list effect) : list string :=
  omap (λ e, match e with Sent frame => Some frame | Called _ _ => None end) w.

(** [moves j] occurs in [window] at offset [i]. *)
Definition occurs_at (j : Joseki) (window : list string) (i : nat) : Prop :=
  (i + length (moves j) <= length window)%nat ∧
  slice window i (i + length (moves j)) = moves j.


(** The counter of the tutor is the length of its history, and the moves
    of the history are numbered 1, 2, ... *)
Definition well_numbered (t : EnhancedGoTutor) : Prop :=
  move_count t = len (game_history t) ∧
  move_number <$> game_history t
  = (λ k, Z.of_nat k + 1) <$> seq 0 (length (game_history t)).

(** The number of moves [_handle_game_update] counts in a payload, when
    the payload parses. *)
Definition stored_count (str_of : pyval → string) (game_data : pyval)
    : option Z :=
  (λ game_state, len (GameInfo.moves game_state))
    <$> parse_game_state str_of game_data.

(** A run of counts, each above five and less than [interval] above the
    one before it, [last] being the one before the first. *)
Fixpoint slow (last interval : Z) (counts : list Z) : Prop :=
  match counts with
  | [] => True
  | c :: rest => 5 < c ∧ c - last < interval ∧ slow c interval rest
  end.

Definition placeholder_players : list (pyval * pyval) :=
  [(PStr "black", PStr "Black Player"); (PStr "white", PStr "White Player")].

(** The frames whose handling raises before anything is done: binary
    frames, and event frames whose body is not JSON; and the call to the
    logger each of them ends in. *)
Definition unreadable (json_loads : string → option pyval)
    (message : ws_message) : Prop :=
  match message with
  | BinaryFrame _ => True
  | TextFrame s =>
      String.prefix "42" s = true ∧ json_loads (Py.str_drop 2 s) = None
  end.

Definition unreadable_entry (message : ws_message) : log_entry :=
  match message with
  | BinaryFrame _ => LogProcessingError Py.TypeError
  | TextFrame s => LogNonJSON (Py.str_take 50 s)
  end.

(** What the loop may do on a frame: answer with the pong ["3"], or hand
    the callback the type and payload of an update event decoded from the
    frame. *)
Definition allowed_effect (json_loads : string → option pyval)
    (message : ws_message) (e : effect) : Prop :=
  match e with
  | Sent frame => frame = "3" ∧ is_ping message = true
  | Called event_data event_type =>
      is_game_update event_type = true ∧
      ∃ s rest, message = TextFrame s ∧ String.prefix "42" s = true ∧
                json_loads (Py.str_drop 2 s)
                = Some (PList (event_type :: event_data :: rest))
  end.

(** The entries [find_patterns] appends for a tactical and for a
    strategic pattern. *)
Definition tactical_entry (recent_move : Move) (p : Pattern) : FoundPattern :=
  mkFoundPattern "tactical" p (Some (to_coords recent_move))
    (if bool_decide (difficulty p = "beginner") then "high" else "medium").

Definition strategic_entry (p : Pattern) : FoundPattern :=
  mkFoundPattern "strategic" p None "medium".

(** * Properties *)

(** ** Decimal numerals: [int(str(n)) = n] *)

Lemma pretty_N_char_digit (d : N) :
  (d < 10)%N →
  Py.is_digit (pretty_N_char d) = true ∧ Py.digit_val (pretty_N_char d) = Z.of_N d.
Proof.
  intros Hd.
  assert (Hcases : d ∈ [0; 1; 2; 3; 4; 5; 6; 7; 8; 9]%N).
  { repeat (rewrite elem_of_cons). lia. }
  repeat (apply elem_of_cons in Hcases as [-> | Hcases]; [by vm_compute |]).
  by apply elem_of_nil in Hcases.
Qed.

Lemma int_digits_pretty_go (n : N) :
  (0 < n)%N → ∀ b s,
  Py.int_digits 0 b (pretty_N_go n s) = Py.int_digits (Z.of_N n) true s.
Proof.
  induction n as [n IH] using (well_founded_ind N.lt_wf_0); intros Hn b s.
  rewrite pretty_N_go_step by done.
  destruct (pretty_N_char_digit (n `mod` 10)) as [Hdig Hval];
    [by apply N.mod_lt |].
  assert (Hsplit : Z.of_N n = 10 * Z.of_N (n `div` 10) + Z.of_N (n `mod` 10)).
  { pose proof (N.div_mod n 10). lia. }
  destruct (decide (n `div` 10 = 0)%N) as [Hz | Hnz].
  - rewrite Hz, pretty_N_go_0. simpl. rewrite Hdig, Hval, Hsplit, Hz. done.
  - rewrite IH.
    + simpl. rewrite Hdig, Hval, Hsplit. done.
    + apply N.div_lt; lia.
    + by apply N.neq_0_lt_0.
Qed.

Lemma digits_only_pretty_go (n : N) :
  ∀ s, Py.digits_only s = true → Py.digits_only (pretty_N_go n s) = true.
Proof.
  induction n as [n IH] using (well_founded_ind N.lt_wf_0); intros s Hs.
  destruct (decide (0 < n)%N) as [Hn | Hn].
  - rewrite pretty_N_go_step by done.
    apply IH; [apply N.div_lt; lia |]. simpl.
    destruct (pretty_N_char_digit (n `mod` 10)) as [-> _];
      [by apply N.mod_lt | done].
  - assert (n = 0%N) as -> by lia. by rewrite pretty_N_go_0.
Qed.

Lemma is_digit_not_space (c : ascii) : Py.is_digit c = true → Py.is_space c = false.
Proof.
  unfold Py.is_digit, Py.is_space. generalize (nat_of_ascii c). intros k Hk.
  apply andb_true_iff in Hk as [?%Nat.leb_le ?%Nat.leb_le].
  apply orb_false_iff; split; apply andb_false_iff.
  - right. apply Nat.leb_gt. lia.
  - right. apply Nat.leb_gt. lia.
Qed.

Lemma rstrip_digits (s : string) : Py.digits_only s = true → Py.rstrip s = s.
Proof.
  induction s as [| c r IH]; [done |]. simpl.
  intros [Hc Hr]%andb_true_iff. rewrite (IH Hr).
  destruct r; [| done]. by rewrite (is_digit_not_space c Hc).
Qed.

Lemma strip_digits (s : string) : Py.digits_only s = true → Py.strip s = s.
Proof.
  intros Hs. unfold Py.strip.
  assert (Py.lstrip s = s) as ->; [| by apply rstrip_digits].
  destruct s as [| c r]; [done |]. simpl in *.
  apply andb_true_iff in Hs as [Hc _]. by rewrite (is_digit_not_space c Hc).
Qed.

Lemma digit_not_sign (c : ascii) :
  Py.is_digit c = true → c ≠ "-"%char ∧ c ≠ "+"%char.
Proof. intros Hc. split; intros ->; by vm_compute in Hc. Qed.

Lemma int_of_str_digits (s : string) :
  Py.digits_only s = true → Py.int_of_str s = Py.int_digits 0 false s.
Proof.
  intros Hs. unfold Py.int_of_str. rewrite (strip_digits s Hs).
  destruct s as [| c r]; [done |]. simpl in Hs.
  apply andb_true_iff in Hs as [[Hm Hp]%digit_not_sign _].
  destruct c as [[] [] [] [] [] [] [] []]; done.
Qed.

(** [int] reads back the numeral [str] writes, for every natural number. *)
Lemma int_of_str_of_int (n : Z) :
  0 <= n → Py.int_of_str (Py.str_of_int n) = Some n.
Proof.
  intros Hn. unfold Py.str_of_int, pretty, pretty_Z.
  destruct n as [| p | p]; [done | | lia].
  unfold pretty, pretty_positive, pretty, pretty_N.
  rewrite decide_False by done.
  rewrite int_of_str_digits by by apply digits_only_pretty_go.
  by rewrite int_digits_pretty_go.
Qed.

Lemma str_of_int_nonempty (n : Z) : 0 <= n → Py.str_of_int n ≠ "".
Proof.
  intros Hn Hempty. pose proof (int_of_str_of_int n Hn) as H.
  rewrite Hempty in H. discriminate H.
Qed.

(** ** Coordinates *)

(** The board alphabet: the letter at each of the 19 columns is upper
    case and is found back at its own index. *)
Lemma letter_at (i : nat) :
  (i < 19)%nat →
  ∃ ch, Py.str_at i letters = String ch "" ∧
        Py.upper (String ch "") = String ch "" ∧
        Py.str_in (String ch "") letters = true ∧
        Py.str_index (String ch "") letters = Some i.
Proof.
  intros Hi.
  do 19 (destruct i as [| i]; [eexists; by vm_compute |]). lia.
Qed.

(** The column [_parse_coordinate] computes from a letter. *)
Lemma column_of_letter (letter : string) :
  (if Py.str_in letter letters
   then match Py.str_index letter letters with
        | Some i => Z.of_nat i
        | None => 0
        end
   else 0) = from_option Z.of_nat 0 (Py.str_index letter letters).
Proof.
  unfold Py.str_in. destruct (Py.str_index letter letters) as [i |].
  - by rewrite bool_decide_true by eauto.
  - rewrite bool_decide_false; [done |]. by intros [? ?].
Qed.

Lemma parse_coordinate_long (ch : ascii) (tail color : string) (move_num : Z) :
  tail ≠ "" →
  _parse_coordinate (String ch tail) color move_num =
    match Py.int_of_str tail with
    | None => Py.Raise Py.ValueError
    | Some number =>
        Py.Ok (mkMove
                 (from_option Z.of_nat 0
                    (Py.str_index (Py.upper (String ch "")) letters))
                 (number - 1) color move_num)
    end.
Proof.
  intros Htail. unfold _parse_coordinate.
  rewrite bool_decide_true by (destruct tail; [done | simpl; lia]).
  change (Py.str_at 0 (String ch tail)) with (String ch "").
  change (Py.str_drop 1 (String ch tail)) with tail.
  destruct (Py.int_of_str tail) as [number |]; [| done].
  by rewrite column_of_letter.
Qed.

(** C6: converting a point of the board to its coordinate string and
    parsing the string back returns the same point. *)
Theorem coordinate_round_trip (col row : Z) (c : string) (n : Z) :
  0 <= col <= 18 → 0 <= row <= 18 →
  _parse_coordinate (to_coords (mkMove col row c n)) c n
  = Py.Ok (mkMove col row c n).
Proof.
  intros Hcol Hrow. unfold to_coords. simpl.
  rewrite bool_decide_true by done.
  destruct (letter_at (Z.to_nat col)) as (ch & Hat & Hup & _ & Hidx); [lia |].
  rewrite Hat.
  change (String ch "" +:+ Py.str_of_int (row + 1))
    with (String ch (Py.str_of_int (row + 1))).
  rewrite parse_coordinate_long by (apply str_of_int_nonempty; lia).
  rewrite int_of_str_of_int by lia.
  rewrite Hup, Hidx. simpl. f_equal. f_equal; lia.
Qed.

Lemma coordinate_round_trip_witness :
  _parse_coordinate (to_coords (mkMove 15 15 "black" 7)) "black" 7
  = Py.Ok (mkMove 15 15 "black" 7).
Proof. apply coordinate_round_trip; lia. Defined.

Example letters_skip_I :
  String.length letters = 19%nat ∧ Py.str_in "I" letters = false ∧
  Py.str_at 7 letters = "H" ∧ Py.str_at 8 letters = "J".
Proof. by vm_compute. Qed.

Example to_coords_Q16 : to_coords (mkMove 15 15 "black" 1) = "Q16".
Proof. by vm_compute. Qed.

Example to_coords_skips_I : to_coords (mkMove 8 0 "white" 2) = "J1".
Proof. by vm_compute. Qed.

Example parse_lower_case :
  _parse_coordinate "d4" "black" 1 = Py.Ok (mkMove 3 3 "black" 1).
Proof. by vm_compute. Qed.

Example parse_not_a_number :
  _parse_coordinate "D4x" "black" 1 = Py.Raise Py.ValueError.
Proof. by vm_compute. Qed.



Example parse_Z9 : _parse_coordinate "z9" "white" 2 = Py.Ok (mkMove 0 8 "white" 2).
Proof. by vm_compute. Qed.

Example parse_I4 : _parse_coordinate "I4" "white" 2 = Py.Ok (mkMove 0 3 "white" 2).
Proof. by vm_compute. Qed.




(** ** The phase of the game *)

(** C7: the phase is the opening below 30 moves, the middle game from 30
    to 119 and the endgame from 120 on; every count falls in one of the
    three cases, and the phase never goes back as the count grows. *)
Theorem phase_thresholds (self : EnhancedGoTutor) :
  0 <= move_count self →
  (move_count self < 30 → _determine_phase self = OPENING) ∧
  (30 <= move_count self < 120 → _determine_phase self = MIDDLE_GAME) ∧
  (120 <= move_count self → _determine_phase self = ENDGAME) ∧
  (∀ later : EnhancedGoTutor,
     move_count self <= move_count later →
     phase_rank (_determine_phase self) <= phase_rank (_determine_phase later)).
Proof.
  intros _. unfold _determine_phase.
  repeat split; try intros later; intros;
    repeat case_bool_decide; simpl; lia || done.
Qed.

Lemma phase_thresholds_witness :
  _determine_phase (mkEnhancedGoTutor JosekiDatabase__init__
                      PatternRecognizer__init__ [] 30) = MIDDLE_GAME.
Proof.
  apply (phase_thresholds
           (mkEnhancedGoTutor JosekiDatabase__init__ PatternRecognizer__init__ [] 30));
    simpl; lia.
Defined.

Example phase_boundaries :
  let at_count n :=
    _determine_phase (mkEnhancedGoTutor JosekiDatabase__init__
                        PatternRecognizer__init__ [] n) in
  at_count 0 = OPENING ∧ at_count 29 = OPENING ∧ at_count 30 = MIDDLE_GAME ∧
  at_count 119 = MIDDLE_GAME ∧ at_count 120 = ENDGAME.
Proof. by vm_compute. Qed.

Lemma parse_coordinate_number (coord c : string) (n : Z) (m : Move) :
  _parse_coordinate coord c n = Py.Ok m → move_number m = n.
Proof.
  unfold _parse_coordinate. case_bool_decide.
  - destruct (Py.int_of_str _); [| done]. by intros [= <-].
  - by intros [= <-].
Qed.

(** [add_move] keeps the counter equal to the length of the history, so
    the count the phase is computed from is never negative. *)
Lemma add_move_count (self self' : EnhancedGoTutor) (coord c : string) (m : Move) :
  move_count self = len (game_history self) →
  add_move self coord c = Py.Ok (self', m) →
  move_count self' = len (game_history self') ∧ move_number m = move_count self'.
Proof.
  intros Hinv. unfold add_move.
  destruct (_parse_coordinate coord c (move_count self + 1)) as [mv | e] eqn:Hp;
    [| done].
  intros [= <- <-]. simpl. split.
  - unfold len in *. rewrite length_app. simpl. lia.
  - by apply parse_coordinate_number in Hp.
Qed.

(** ** The joseki matcher *)

Lemma slice_full {A} (l l' : list A) (i : nat) :
  (i + length l' <= length l)%nat →
  length (slice l i (i + length l')) = length l'.
Proof.
  intros Hi. unfold slice. rewrite length_take, length_drop. lia.
Qed.

(** The offsets [range] hands to the inner loop leave room for the whole
    sequence of the record: the slice tested has the record's length. *)
Lemma py_range_room (recent_moves joseki_moves : list string) (i : nat) :
  i ∈ py_range (len recent_moves - len joseki_moves + 1) →
  (i + length joseki_moves <= length recent_moves)%nat.
Proof.
  unfold py_range, len. rewrite elem_of_seq. lia.
Qed.

Lemma check_offsets_complete (j : Joseki) (recent_moves : list string)
    (offsets : list nat) (m : JosekiMatch) :
  (∀ i, i ∈ offsets → (i + length (moves j) <= length recent_moves)%nat) →
  check_offsets j recent_moves offsets = Some m →
  joseki m = j ∧ is_complete m = true ∧ matched_moves m = len (moves j) ∧
  total_moves m = len (moves j) ∧
  ∃ i, i ∈ offsets ∧ slice recent_moves i (i + length (moves j)) = moves j.
Proof.
  induction offsets as [| i rest IH]; intros Hroom; simpl; [done |].
  assert (Hlen : length (slice recent_moves i (i + length (moves j)))
                 = length (moves j)).
  { apply slice_full, Hroom. left. }
  rewrite Hlen, firstn_all.
  case_bool_decide as Heq.
  - intros [= <-]. simpl. unfold len. rewrite Hlen.
    rewrite bool_decide_true by done.
    repeat split; try done. exists i. split; [left | done].
  - intros Hrest. destruct IH as (? & ? & ? & ? & k & Hk & Hslice); try done.
    + intros k Hk. apply Hroom. by right.
    + repeat split; try done. exists k. split; [by right | done].
Qed.

(** Whatever [check_joseki] returns is a complete match: the whole
    sequence of the record occurs in the window, so the branch for a
    match in progress is never taken. *)
Lemma check_joseki_always_complete (self : JosekiDatabase)
    (recent_moves : list string) (m : JosekiMatch) :
  check_joseki self recent_moves = Some m →
  joseki m ∈ josekis self ∧ is_complete m = true ∧
  matched_moves m = total_moves m ∧
  ∃ i, slice recent_moves i (i + length (moves (joseki m))) = moves (joseki m).
Proof.
  unfold check_joseki. case_bool_decide; [done |].
  induction (josekis self) as [| j js IH]; simpl; [done |].
  destruct (check_offsets j recent_moves _) as [m' |] eqn:Hoff.
  - intros [= ->].
    apply check_offsets_complete in Hoff
      as (-> & Hc & Hm & Ht & i & _ & Hslice);
      [| intros i; apply py_range_room].
    repeat split; [left | done | congruence | by exists i].
  - intros Hrest. destruct (IH Hrest) as (Hin & ? & ? & ?).
    repeat split; [by right | done..].
Qed.

(** C1: on the window ["D4", "Q16"] the matcher returns nothing, where
    the claim expects the "3-4 Point Approach" record with two moves
    matched; the window with all four moves does return that record, as a
    complete match. *)
Theorem check_joseki_prefix_window :
  check_joseki JosekiDatabase__init__ ["D4"; "Q16"] = None ∧
  (λ m, (name (joseki m), matched_moves m, total_moves m, is_complete m))
    <$> check_joseki JosekiDatabase__init__ ["D4"; "Q16"; "R14"; "Q14"]
  = Some ("3-4 Point Approach", 4, 4, true).
Proof. by vm_compute. Qed.

Example check_joseki_one_move :
  check_joseki JosekiDatabase__init__ ["D4"] = None.
Proof. by vm_compute. Qed.

Example check_joseki_inside_window :
  (λ m, (name (joseki m), matched_moves m, is_complete m))
    <$> check_joseki JosekiDatabase__init__ ["A1"; "D4"; "F3"; "B2"]
  = Some ("Knight's Move Enclosure", 2, true).
Proof. by vm_compute. Qed.

(** ** The move normaliser *)

(** What the loop body stores for an entry: the integer values of its
    two coordinates, both on the board, and the position of the entry in
    the raw list, counted from 1. *)
Lemma parse_move_stored (i : nat) (move_data : pyval) (m : Parsed.t) :
  parse_move i move_data = Some m →
  ∃ vx vy vcolor,
    move_fields i move_data = Some (vx, vy, vcolor) ∧
    as_int vx = Some (Parsed.x m) ∧ as_int vy = Some (Parsed.y m) ∧
    0 <= Parsed.x m <= 18 ∧ 0 <= Parsed.y m <= 18 ∧
    Parsed.color m = vcolor ∧
    Parsed.move_number m = Z.of_nat i + 1.
Proof.
  unfold parse_move.
  destruct (move_fields i move_data) as [[[vx vy] vcolor] |]; [| done]. simpl.
  destruct (as_int vx) as [px |] eqn:Hx; [| done]. simpl.
  case_bool_decide; [| done].
  destruct (as_int vy) as [py |] eqn:Hy; [| done]. simpl.
  case_bool_decide; [| done].
  intros [= <-]. simpl. exists vx, vy, vcolor. repeat split; done || lia.
Qed.


Lemma elem_of_parse_moves_from (i : nat) (moves_data : list pyval) (m : Parsed.t) :
  m ∈ parse_moves_from i moves_data ↔
  ∃ k move_data,
    moves_data !! k = Some move_data ∧ parse_move (i + k) move_data = Some m.
Proof.
  revert i. induction moves_data as [| e rest IH]; intros i; simpl.
  - split; [by intros ?%elem_of_nil | by intros (k & ? & ? & _)].
  - assert (Hrest : m ∈ parse_moves_from (S i) rest ↔
                    ∃ k move_data, (e :: rest) !! S k = Some move_data ∧
                                   parse_move (i + S k) move_data = Some m).
    { rewrite IH. by setoid_rewrite Nat.add_succ_r. }
    destruct (parse_move i e) as [m0 |] eqn:He.
    + rewrite elem_of_cons, Hrest. split.
      * intros [-> | (k & md & ? & ?)].
        -- exists 0%nat, e. by rewrite Nat.add_0_r.
        -- by exists (S k), md.
      * intros ([| k] & md & Hk & Hp).
        -- left. simpl in Hk. injection Hk as <-.
           rewrite Nat.add_0_r in Hp. congruence.
        -- right. by exists k, md.
    + rewrite Hrest. split.
      * intros (k & md & ? & ?). by exists (S k), md.
      * intros ([| k] & md & Hk & Hp).
        -- simpl in Hk. injection Hk as <-.
           rewrite Nat.add_0_r in Hp. congruence.
        -- by exists k, md.
Qed.






Example parse_moves_dict_entries :
  (λ m, (Parsed.coordinate m, Parsed.color m, Parsed.move_number m))
    <$> _parse_moves
          [PDict {[ "x" := PInt 3; "y" := PInt 3 ]};
           PDict {[ "x" := PInt 15; "y" := PInt 15; "color" := PStr "white" ]};
           PDict {[ "y" := PInt 2 ]};
           PList [PInt 16];
           PList [PStr "q"; PInt 4];
           PList [PInt 8; PInt 18; PStr "white"]]
  = [("D4", PStr "black", 1); ("Q16", PStr "white", 2); ("J19", PStr "white", 6)].
Proof. by vm_compute. Qed.

(** ** The sampling policy of the live tutor *)

Section SamplingPolicy.

Variable str_of : pyval → string.

(** An update that parses triggers a pass exactly when the test of
    [_should_provide_tutoring] holds, and records the new count whether
    the pass ran or not. *)
Lemma handle_game_update_parsed (self : LiveOGSTutor) (game_data event_type : pyval)
    (game_state : GameInfo.t) :
  parse_game_state str_of game_data = Some game_state →
  let c := len (GameInfo.moves game_state) in
  let '(self', tutored) := _handle_game_update str_of self game_data event_type in
  (is_Some tutored ↔
     c - last_move_count self >= tutoring_interval self ∨ c <= 5) ∧
  last_move_count self' = c ∧
  tutoring_interval self' = tutoring_interval self.
Proof.
  intros Hparse. unfold _handle_game_update. rewrite Hparse. simpl.
  repeat split; try done.
  - unfold _should_provide_tutoring.
    repeat case_bool_decide; intros [? [=]]; lia.
  - unfold _should_provide_tutoring.
    repeat case_bool_decide; intros ?; by eauto || lia.
Qed.

(** An update that does not parse changes nothing. *)
Lemma handle_game_update_unparsed (self : LiveOGSTutor) (game_data event_type : pyval) :
  parse_game_state str_of game_data = None →
  _handle_game_update str_of self game_data event_type = (self, None).
Proof. intros Hparse. unfold _handle_game_update. by rewrite Hparse. Qed.

Lemma parse_game_with_moves (k : nat) :
  GameInfo.moves <$> parse_game_state str_of (game_with_moves k)
  = Some (_parse_moves (replicate k (PList [PInt 3; PInt 3]))).
Proof.
  unfold parse_game_state, game_with_moves, dict_get.
  rewrite lookup_singleton_eq. simpl.
  unfold _extract_players. by rewrite lookup_singleton_ne by done.
Qed.

End SamplingPolicy.

(** C3: with the interval at 5 and an update after every move, passes run
    at the counts 1 to 5 and at no later count: the count is recorded after
    every update, so at count 10 the difference to the recorded count is 1
    and no pass runs, where the claim expects one. *)
Theorem sampling_with_an_update_per_move (str_of : pyval → string) :
  let session := handle_updates str_of LiveOGSTutor__init__
                   (game_with_moves <$> seq 1 10) in
  session.2 = [true; true; true; true; true; false; false; false; false; false] ∧
  last_move_count session.1 = 10 ∧
  last_move_count
    (handle_updates str_of LiveOGSTutor__init__ (game_with_moves <$> seq 1 6)).1
  = 6.
Proof. by vm_compute. Qed.

Example sampling_jump_of_five (str_of : pyval → string) :
  (handle_updates str_of LiveOGSTutor__init__
     (game_with_moves <$> [5; 6; 11]%nat)).2 = [true; false; true].
Proof. by vm_compute. Qed.

(** ** Chance: the pattern recogniser and the value estimates *)

Lemma random_random_agree (g1 g2 : tape) (k : nat) :
  agree (S k) g1 g2 →
  (random_random g1).1 = (random_random g2).1 ∧
  agree k (random_random g1).2 (random_random g2).2.
Proof.
  intros Hg. unfold random_random, next_word, mbind, rand_bind, mret, rand_ret.
  simpl. split.
  - rewrite (Hg 0%nat) by lia. done.
  - intros i Hi. apply Hg. lia.
Qed.

Lemma find_tactical_cons (b : board) (m : Move) (p : Pattern)
    (rest : list Pattern) (found : list FoundPattern) (g : tape) :
  find_tactical b m (p :: rest) found g =
  find_tactical b m rest
    (if Qltb (random_random g).1 (3 # 10) then
       found ++ [mkFoundPattern "tactical" p (Some (to_coords m))
                   (if bool_decide (difficulty p = "beginner")
                    then "high" else "medium")]
     else found)
    (random_random g).2.
Proof. done. Qed.

Lemma find_strategic_cons (b : board) (p : Pattern) (rest : list Pattern)
    (found : list FoundPattern) (g : tape) :
  find_strategic b (p :: rest) found g =
  find_strategic b rest
    (if Qltb (random_random g).1 (2 # 10) then
       found ++ [mkFoundPattern "strategic" p None "medium"]
     else found)
    (random_random g).2.
Proof. done. Qed.

(** The tactical loop reads one word per pattern and never the board. *)
Lemma find_tactical_agree (b1 b2 : board) (m : Move) (ps : list Pattern) :
  ∀ (found : list FoundPattern) (g1 g2 : tape) (k : nat),
    agree (length ps + k) g1 g2 →
    (find_tactical b1 m ps found g1).1 = (find_tactical b2 m ps found g2).1 ∧
    agree k (find_tactical b1 m ps found g1).2 (find_tactical b2 m ps found g2).2.
Proof.
  induction ps as [| p rest IH]; intros found g1 g2 k Hg; [done |].
  rewrite !find_tactical_cons.
  destruct (random_random_agree g1 g2 (length rest + k) Hg) as [-> Hg'].
  by apply IH.
Qed.

Lemma find_strategic_agree (b1 b2 : board) (ps : list Pattern) :
  ∀ (found : list FoundPattern) (g1 g2 : tape) (k : nat),
    agree (length ps + k) g1 g2 →
    (find_strategic b1 ps found g1).1 = (find_strategic b2 ps found g2).1 ∧
    agree k (find_strategic b1 ps found g1).2 (find_strategic b2 ps found g2).2.
Proof.
  induction ps as [| p rest IH]; intros found g1 g2 k Hg; [done |].
  rewrite !find_strategic_cons.
  destruct (random_random_agree g1 g2 (length rest + k) Hg) as [-> Hg'].
  by apply IH.
Qed.

Lemma find_patterns_unfold (self : PatternRecognizer) (b : board) (m : Move)
    (g : tape) :
  find_patterns self b m g =
  find_strategic b (strategic_patterns self)
    (find_tactical b m (tactical_patterns self) [] g).1
    (find_tactical b m (tactical_patterns self) [] g).2.
Proof.
  unfold find_patterns, mbind, rand_bind.
  by destruct (find_tactical b m (tactical_patterns self) [] g).
Qed.

(** C4, as stated: two calls in a row on the same board and move return
    different lists, all eight patterns and then none. *)
Lemma find_patterns_not_repeatable :
  let move := mkMove 3 3 "black" 1 in
  let first := find_patterns PatternRecognizer__init__ ∅ move lucky_then_unlucky in
  let second := find_patterns PatternRecognizer__init__ ∅ move first.2 in
  length first.1 = 8%nat ∧ second.1 = [] ∧ first.1 ≠ second.1.
Proof.
  assert (H8 : length (find_patterns PatternRecognizer__init__ ∅
                         (mkMove 3 3 "black" 1) lucky_then_unlucky).1 = 8%nat)
    by by vm_compute.
  assert (H0 : (find_patterns PatternRecognizer__init__ ∅ (mkMove 3 3 "black" 1)
                  (find_patterns PatternRecognizer__init__ ∅
                     (mkMove 3 3 "black" 1) lucky_then_unlucky).2).1 = [])
    by by vm_compute.
  cbv zeta. split; [done | split; [done |]].
  intros Heq. rewrite H0 in Heq. by rewrite Heq in H8.
Qed.

(** C4, amended: the list of matches is a function of the move and of the
    words drawn, one per pattern of the two catalogues; two calls that draw
    the same words return the same list, in the same order and with the
    same urgency tags, and the board plays no part. *)
Theorem find_patterns_same_draws (self : PatternRecognizer) (b1 b2 : board)
    (m : Move) (g1 g2 : tape) :
  agree (length (tactical_patterns self) + length (strategic_patterns self))
        g1 g2 →
  (find_patterns self b1 m g1).1 = (find_patterns self b2 m g2).1.
Proof.
  intros Hg. rewrite !find_patterns_unfold.
  destruct (find_tactical_agree b1 b2 m (tactical_patterns self) [] g1 g2
              (length (strategic_patterns self)) Hg) as [-> Hg'].
  apply (find_strategic_agree b1 b2 (strategic_patterns self) _ _ _ 0%nat).
  by rewrite Nat.add_0_r.
Qed.

Lemma find_patterns_same_draws_witness :
  (find_patterns PatternRecognizer__init__ ∅ (mkMove 3 3 "black" 1)
     lucky_then_unlucky).1
  = (find_patterns PatternRecognizer__init__ {[ (3, 3) := "black" ]}
       (mkMove 3 3 "black" 1) (λ _, 0%N)).1.
Proof.
  apply find_patterns_same_draws.
  intros i Hi. unfold lucky_then_unlucky.
  destruct (Nat.ltb_spec i 8) as [_ | Hge]; [reflexivity |].
  exfalso. revert Hi Hge. simpl. lia.
Defined.

(** [random.randint(a, b)] stays within its bounds, and every value of
    the interval is drawn from some tape. *)
Lemma random_randint_range (a b : Z) (g : tape) :
  a <= b → a <= (random_randint a b g).1 <= b.
Proof.
  intros Hab. unfold random_randint, next_word, mbind, rand_bind, mret, rand_ret.
  simpl. pose proof (Z.mod_pos_bound (Z.of_N (g 0%nat)) (b - a + 1)). lia.
Qed.

Lemma random_randint_covers (a b j : Z) :
  a <= j <= b → ∃ g : tape, (random_randint a b g).1 = j.
Proof.
  intros Hj. exists (λ _, Z.to_N (j - a)).
  unfold random_randint, next_word, mbind, rand_bind, mret, rand_ret. simpl.
  rewrite Z2N.id by lia. rewrite Z.mod_small by lia. lia.
Qed.

Lemma estimate_territorial_value_jitter (move : Move) (phase : GamePhase) (g : tape) :
  ∃ base, base ∈ [5; 7; 8] ∧
    (_estimate_territorial_value move phase g).1
    = Z.min 10 (Z.max 1 (base + (random_randint (-2) 2 g).1)).
Proof.
  unfold _estimate_territorial_value.
  destruct phase, (_is_corner_area move), (_is_edge_area move); simpl;
    eexists; (split; [| reflexivity]); set_solver.
Qed.

Lemma estimate_influence_value_jitter (move : Move) (phase : GamePhase) (g : tape) :
  ∃ base, base ∈ [5; 6; 8; 9] ∧
    (_estimate_influence_value move phase g).1
    = Z.min 10 (Z.max 1 (base + (random_randint (-2) 2 g).1)).
Proof.
  unfold _estimate_influence_value.
  destruct phase, (_is_center_area move); simpl;
    eexists; (split; [| reflexivity]); set_solver.
Qed.

(** C9: whatever the move, the phase and the jitter drawn, the
    territorial value and the influence value lie between 1 and 10. *)
Theorem estimates_between_1_and_10 (move : Move) (phase : GamePhase) (g : tape) :
  1 <= (_estimate_territorial_value move phase g).1 <= 10 ∧
  1 <= (_estimate_influence_value move phase g).1 <= 10.
Proof.
  destruct (estimate_territorial_value_jitter move phase g) as (bt & _ & ->).
  destruct (estimate_influence_value_jitter move phase g) as (bi & _ & ->).
  lia.
Qed.

Example influence_is_clamped :
  (_estimate_influence_value (mkMove 9 9 "black" 1) OPENING (λ _, 4%N)).1 = 10.
Proof. by vm_compute. Qed.

(** ** The monitoring loop *)

Section MalformedFrames.

Variable json_loads : string → option pyval.
Context {W : Type}.
Variable send : string → W → W * option Py.exn.
Variable callback : pyval → pyval → W → W * option Py.exn.

(** A frame that is neither an event nor a ping is counted and ignored. *)
Lemma other_frame_ignored (message : string) (st : loop_state) :
  String.prefix "42" message = false → String.prefix "2" message = false →
  message_count st + 1 <= 100 →
  process_message json_loads send callback (TextFrame message) st
  = (mkLoop (message_count st + 1) (world st) (log st), false).
Proof.
  intros H42 H2 Hcount. unfold process_message, dispatch.
  rewrite H42, H2. simpl. by rewrite bool_decide_false by lia.
Qed.

(** No iteration raises: whatever the frame, [process_message] yields a
    state; and only the message limit leaves the loop. *)
Lemma process_message_stops_on_limit (message : ws_message) (st : loop_state) :
  (process_message json_loads send callback message st).2 = true →
  message_count st + 1 > 100.
Proof.
  unfold process_message.
  destruct (dispatch _ _ _ _ _) as [st' [[] | e]] eqn:Hd; simpl.
  - assert (message_count st' = message_count st + 1) as ->.
    { unfold dispatch, acted, logged in Hd.
      repeat case_match; simplify_eq; done. }
    by case_bool_decide.
  - by destruct e.
Qed.

End MalformedFrames.

(** C8: an event frame whose body is not JSON is counted, reported by one
    call to the logger at debug level and otherwise ignored: nothing is
    sent, the callback is not called, the loop goes on with the frames
    that follow, and [monitor_game] handles them as if after any other
    frame. *)
Theorem malformed_event_frame_non_fatal {W : Type}
    (json_loads : string → option pyval)
    (send : string → W → W * option Py.exn)
    (callback : pyval → pyval → W → W * option Py.exn)
    (message : string) (st : loop_state) (rest : list ws_message) :
  String.prefix "42" message = true →
  json_loads (Py.str_drop 2 message) = None →
  let st' := mkLoop (message_count st + 1) (world st)
               (log st ++ [LogNonJSON (Py.str_take 50 message)]) in
  process_message json_loads send callback (TextFrame message) st = (st', false) ∧
  level (LogNonJSON (Py.str_take 50 message)) = DEBUG ∧
  monitor_loop json_loads send callback (TextFrame message :: rest) st
  = monitor_loop json_loads send callback rest st'.
Proof.
  intros H42 Hbad st'.
  assert (Hstep : process_message json_loads send callback (TextFrame message) st
                  = (st', false)).
  { unfold process_message, dispatch. by rewrite H42, Hbad. }
  split; [done |]. split; [done |]. simpl. by rewrite Hstep.
Qed.

Lemma malformed_event_frame_non_fatal_witness :
  let json_loads := λ _ : string, @None pyval in
  let send := λ (_ : string) (w : unit), (w, @None Py.exn) in
  let callback := λ (_ _ : pyval) (w : unit), (w, @None Py.exn) in
  process_message json_loads send callback (TextFrame "42[not json") (mkLoop 7 () [])
  = (mkLoop 8 () [LogNonJSON "42[not json"], false).
Proof.
  apply (malformed_event_frame_non_fatal (λ _, None) (λ _ w, (w, None))
           (λ _ _ w, (w, None)) "42[not json" (mkLoop 7 () []) []);
    reflexivity.
Defined.

(** * Further properties *)

(** ** The joseki matcher: what a match is *)

Lemma occurs_at_range (j : Joseki) (window : list string) (i : nat) :
  occurs_at j window i ↔
  i ∈ py_range (len window - len (moves j) + 1) ∧
  slice window i (i + length (moves j)) = moves j.
Proof.
  unfold occurs_at, py_range, len. rewrite elem_of_seq.
  split; intros [Hroom Hslice]; (split; [lia | done]).
Qed.

Lemma check_offsets_none (j : Joseki) (window : list string) (offsets : list nat) :
  (∀ i, i ∈ offsets → (i + length (moves j) <= length window)%nat) →
  check_offsets j window offsets = None ↔
  ∀ i, i ∈ offsets → slice window i (i + length (moves j)) ≠ moves j.
Proof.
  induction offsets as [| i rest IH]; intros Hroom; simpl.
  - split; [by intros _ i ?%elem_of_nil | done].
  - assert (Hlen : length (slice window i (i + length (moves j)))
                   = length (moves j)).
    { apply slice_full, Hroom. left. }
    rewrite Hlen, firstn_all.
    case_bool_decide as Heq.
    + split; [done |]. intros Hno. destruct (Hno i); [left | done].
    + rewrite IH by (intros k Hk; apply Hroom; by right). split.
      * intros Hno k [-> | Hk]%elem_of_cons; [done | by apply Hno].
      * intros Hno k Hk. apply Hno. by right.
Qed.

Lemma check_offsets_range_none (j : Joseki) (window : list string) :
  check_offsets j window (py_range (len window - len (moves j) + 1)) = None ↔
  ∀ i, ¬ occurs_at j window i.
Proof.
  rewrite check_offsets_none by (intros i; apply py_range_room).
  split.
  - intros Hno i [Hin Hslice]%occurs_at_range. by apply (Hno i).
  - intros Hno i Hin Hslice. apply (Hno i), occurs_at_range. done.
Qed.

(** X1: what [check_joseki] returns is the first record of the catalogue
    whose whole move sequence occurs in the window, reported as complete
    with all its moves matched; no record before it occurs anywhere in
    the window. *)
Theorem check_joseki_first_occurrence (self : JosekiDatabase)
    (window : list string) (m : JosekiMatch) :
  check_joseki self window = Some m →
  2 <= len window ∧
  is_complete m = true ∧
  matched_moves m = len (moves (joseki m)) ∧
  total_moves m = len (moves (joseki m)) ∧
  ∃ before after i,
    josekis self = before ++ joseki m :: after ∧
    occurs_at (joseki m) window i ∧
    ∀ j k, j ∈ before → ¬ occurs_at j window k.
Proof.
  unfold check_joseki. case_bool_decide as Hshort; [done |].
  intros Hrec. split; [lia |]. revert Hrec.
  induction (josekis self) as [| j js IH]; simpl; [done |].
  destruct (check_offsets j window _) as [m' |] eqn:Hoff.
  - intros [= ->].
    apply check_offsets_complete in Hoff
      as (-> & Hc & Hm & Ht & i & Hi & Hslice);
      [| intros i; apply py_range_room].
    repeat split; try done.
    exists [], js, i. repeat split; try done.
    + by apply py_range_room.
    + by intros ? ? ?%elem_of_nil.
  - intros Hrest. destruct (IH Hrest) as (Hc & Hm & Ht & before & after & i & -> & Hocc & Hno).
    repeat split; try done.
    exists (j :: before), after, i. repeat split; try done; try apply Hocc.
    intros j' k [-> | Hin]%elem_of_cons.
    + by apply check_offsets_range_none.
    + by apply Hno.
Qed.

Lemma check_joseki_first_occurrence_witness :
  2 <= len ["A1"; "D4"; "F3"] ∧
  ∃ m, check_joseki JosekiDatabase__init__ ["A1"; "D4"; "F3"] = Some m ∧
       is_complete m = true.
Proof.
  pose (m := mkJosekiMatch
               (mkJoseki "Knight's Move Enclosure" ["D4"; "F3"]
                  "Secure corner territory" "opening"
                  "Solid corner development, good for beginners"
                  ["C6"; "E3"; "C3"]) 2 2 true).
  assert (H : check_joseki JosekiDatabase__init__ ["A1"; "D4"; "F3"] = Some m)
    by reflexivity.
  destruct (check_joseki_first_occurrence _ _ _ H) as (Hlen & Hc & _).
  split; [exact Hlen |]. exists m. split; [exact H | exact Hc].
Defined.

(** X2: [check_joseki] returns nothing exactly when the window has fewer
    than two coordinates or no record of the catalogue has its whole
    sequence in the window; a window that only holds the beginning of a
    sequence matches nothing. *)
Theorem check_joseki_none_iff (self : JosekiDatabase) (window : list string) :
  check_joseki self window = None ↔
  len window < 2 ∨ ∀ j i, j ∈ josekis self → ¬ occurs_at j window i.
Proof.
  unfold check_joseki. case_bool_decide as Hshort.
  { split; [by left | done]. }
  assert (check_records (josekis self) window = None ↔
          ∀ j i, j ∈ josekis self → ¬ occurs_at j window i) as ->;
    [| split; [by right | by intros [? | ?]; [lia |]]].
  induction (josekis self) as [| j js IH]; simpl.
  - split; [by intros _ ? ? ?%elem_of_nil | done].
  - destruct (check_offsets j window _) as [m' |] eqn:Hoff.
    + split; [done |]. intros Hno.
      assert (Hnone : check_offsets j window
                (py_range (len window - len (moves j) + 1)) = None).
      { apply check_offsets_range_none. intros i. apply Hno. left. }
      congruence.
    + rewrite IH. split.
      * intros Hno j' i [-> | Hin]%elem_of_cons;
          [by apply check_offsets_range_none | by apply Hno].
      * intros Hno j' i Hin. apply Hno. by right.
Qed.

(** ** Coordinates: letter case, points off the board, and the
    normaliser's strings *)



Lemma append_assoc (a b c : string) : (a +:+ b) +:+ c = a +:+ (b +:+ c).
Proof.
  induction a as [| ch a IH]; [done |].
  change (String ch ((a +:+ b) +:+ c) = String ch (a +:+ (b +:+ c))).
  by rewrite IH.
Qed.

Lemma int_digits_paren (s : string) :
  ∀ acc b, Py.int_digits acc b (s +:+ ")") = None.
Proof.
  induction s as [| ch s IH]; intros acc b; [done |].
  change (String ch s +:+ ")") with (String ch (s +:+ ")")). simpl.
  destruct (Py.is_digit ch); [apply IH |].
  destruct (Ascii.eqb ch "_" && b); [apply IH | done].
Qed.

Lemma lstrip_paren (s : string) : ∃ s', Py.lstrip (s +:+ ")") = s' +:+ ")".
Proof.
  induction s as [| ch s IH]; [by exists "" |].
  change (String ch s +:+ ")") with (String ch (s +:+ ")")). simpl.
  destruct (Py.is_space ch); [done | by exists (String ch s)].
Qed.

Lemma rstrip_paren (s : string) : Py.rstrip (s +:+ ")") = s +:+ ")".
Proof.
  induction s as [| ch s IH]; [done |].
  change (String ch s +:+ ")") with (String ch (s +:+ ")")). simpl.
  rewrite IH. by destruct s.
Qed.

(** [int] rejects every string that ends with a closing parenthesis. *)
Lemma int_of_str_paren (s : string) : Py.int_of_str (s +:+ ")") = None.
Proof.
  unfold Py.int_of_str, Py.strip.
  destruct (lstrip_paren s) as [s' ->]. rewrite rstrip_paren.
  destruct s' as [| ch s']; [done |].
  change (String ch s' +:+ ")") with (String ch (s' +:+ ")")).
  pose proof (int_digits_paren (String ch s') 0 false) as Hall.
  pose proof (int_digits_paren s' 0 false) as Hrest.
  change (String ch s' +:+ ")") with (String ch (s' +:+ ")")) in Hall.
  destruct ch as [[] [] [] [] [] [] [] []];
    first [exact Hall | by rewrite Hrest].
Qed.

(** X4: the string [to_coords] gives a move whose column is off the
    board is not a coordinate: [_parse_coordinate] raises [ValueError] on
    it, so such a move does not survive the round trip. *)
Theorem off_board_coords_do_not_parse (m : Move) (c : string) (n : Z) :
  ¬ (0 <= x m <= 18) →
  _parse_coordinate (to_coords m) c n = Py.Raise Py.ValueError.
Proof.
  intros Hoff. unfold to_coords. rewrite bool_decide_false by done.
  change ("(" +:+ Py.str_of_int (x m) +:+ "," +:+ Py.str_of_int (y m) +:+ ")")
    with (String "(" (Py.str_of_int (x m) +:+ "," +:+ Py.str_of_int (y m) +:+ ")")).
  assert (Htail : Py.str_of_int (x m) +:+ "," +:+ Py.str_of_int (y m) +:+ ")"
                  = (Py.str_of_int (x m) +:+ "," +:+ Py.str_of_int (y m)) +:+ ")").
  { by rewrite !append_assoc. }
  rewrite parse_coordinate_long.
  - by rewrite Htail, int_of_str_paren.
  - rewrite Htail. by destruct (Py.str_of_int (x m) +:+ "," +:+ Py.str_of_int (y m)).
Qed.

Lemma off_board_coords_do_not_parse_witness :
  _parse_coordinate (to_coords (mkMove 19 3 "black" 1)) "black" 1
  = Py.Raise Py.ValueError.
Proof. apply off_board_coords_do_not_parse. simpl. lia. Defined.





(** ** The tutor: numbering, replay and the board *)

(** X6: a tutor starts with a well-numbered history and [add_move] keeps
    it so: a call that returns appends exactly the move it returns,
    numbered one more than the counter, and changes nothing else. *)
Theorem add_move_keeps_numbering :
  well_numbered EnhancedGoTutor__init__ ∧
  ∀ (self self' : EnhancedGoTutor) (coord c : string) (m : Move),
    well_numbered self →
    add_move self coord c = Py.Ok (self', m) →
    well_numbered self' ∧
    game_history self' = game_history self ++ [m] ∧
    move_number m = move_count self + 1 ∧ color m = c ∧
    joseki_db self' = joseki_db self ∧
    pattern_recognizer self' = pattern_recognizer self.
Proof.
  split; [done |].
  intros self self' coord c m [Hcount Hnums]. unfold add_move.
  destruct (_parse_coordinate coord c (move_count self + 1)) as [mv | e] eqn:Hp;
    [| done].
  intros [= <- <-]. simpl.
  pose proof (parse_coordinate_number _ _ _ _ Hp) as Hnum.
  assert (Hcolor : color mv = c).
  { revert Hp. unfold _parse_coordinate. case_bool_decide.
    - destruct (Py.int_of_str _); [| done]. by intros [= <-].
    - by intros [= <-]. }
  split; [split |]; simpl; [| | done].
  - unfold len in *. rewrite length_app. simpl. lia.
  - rewrite length_app, Nat.add_1_r, seq_S, !fmap_app, <- Hnums. simpl.
    f_equal. f_equal. unfold len in Hcount. lia.
Qed.

Lemma add_move_keeps_numbering_witness :
  ∃ t m, add_move EnhancedGoTutor__init__ "Q16" "black" = Py.Ok (t, m) ∧
         well_numbered t ∧ move_number m = 1.
Proof.
  destruct (_parse_coordinate "Q16" "black" (0 + 1)) as [mv | e] eqn:Hp;
    [| by vm_compute in Hp].
  exists (mkEnhancedGoTutor JosekiDatabase__init__ PatternRecognizer__init__
            [mv] 1), mv.
  assert (Hadd : add_move EnhancedGoTutor__init__ "Q16" "black"
                 = Py.Ok (mkEnhancedGoTutor JosekiDatabase__init__
                            PatternRecognizer__init__ [mv] 1, mv)).
  { unfold add_move. simpl move_count. by rewrite Hp. }
  destruct (proj2 add_move_keeps_numbering _ _ _ _ _
              (proj1 add_move_keeps_numbering) Hadd) as (Hw & _ & Hn & _).
  split; [exact Hadd |]. split; [exact Hw | exact Hn].
Defined.





(** X8: the board [_create_board_state] builds holds, at each point, the
    colour of the last move of the history played there, and nothing at
    a point no move was played at: a later stone replaces an earlier one,
    and nothing is ever removed. *)
Theorem board_state_last_colour (self : EnhancedGoTutor) (p : Z * Z) :
  _create_board_state self !! p
  = color <$> last (filter (λ m, (x m, y m) = p) (game_history self)).
Proof.
  unfold _create_board_state.
  induction (game_history self) as [| m l IH] using rev_ind; [done |].
  rewrite foldl_app, filter_app. simpl.
  destruct (decide ((x m, y m) = p)) as [Heq | Hne].
  - rewrite Heq, lookup_insert_eq.
    rewrite filter_cons_True by done. by rewrite filter_nil, last_snoc.
  - rewrite lookup_insert_ne by done.
    rewrite filter_cons_False by done. by rewrite filter_nil, app_nil_r.
Qed.

(** ** The normaliser: colours, counts and players *)

Lemma parse_move_at (moves_data : list pyval) (i : nat) (move_data : pyval)
    (m : Parsed.t) :
  moves_data !! i = Some move_data →
  m ∈ _parse_moves moves_data →
  Parsed.move_number m = Z.of_nat i + 1 →
  parse_move i move_data = Some m.
Proof.
  intros Hi (k & e & Hk & Hp)%elem_of_parse_moves_from Hnum. simpl in Hp.
  pose proof (parse_move_stored _ _ _ Hp)
    as (? & ? & ? & _ & _ & _ & _ & _ & _ & Hk').
  assert (k = i) as -> by lia. congruence.
Qed.

Lemma even_index (i : nat) : (Z.of_nat i mod 2 =? 0) = Nat.even i.
Proof.
  destruct (Nat.even i) eqn:He.
  - apply Nat.even_spec in He as [k ->]. apply Z.eqb_eq.
    rewrite Nat2Z.inj_mul, Z.mul_comm. apply Z_mod_mult.
  - apply Z.eqb_neq.
    assert (Hodd : Nat.odd i = true) by (by rewrite <- Nat.negb_even, He).
    apply Nat.odd_spec in Hodd as [k ->].
    rewrite Nat2Z.inj_add, Nat2Z.inj_mul, Z.add_comm, Z.mul_comm.
    by rewrite Z_mod_plus_full.
Qed.

(** X9: the colour stored for a move.  For an entry given as a list it
    is black at an even position of the raw list and white at an odd one,
    whatever third item the list carries; for an entry given as an object
    it is the value under ["color"], and the same default when the key is
    missing. *)
Theorem stored_colour (moves_data : list pyval) (i : nat) (move_data : pyval)
    (m : Parsed.t) :
  moves_data !! i = Some move_data →
  m ∈ _parse_moves moves_data →
  Parsed.move_number m = Z.of_nat i + 1 →
  match move_data with
  | PList _ => Parsed.color m = default_color i
  | PDict d => Parsed.color m = default (default_color i) (d !! "color")
  | _ => False
  end ∧
  default_color i = PStr (if Nat.even i then "black" else "white").
Proof.
  intros Hi Hm Hnum. pose proof (parse_move_at _ _ _ _ Hi Hm Hnum) as Hp.
  apply parse_move_stored in Hp as (vx & vy & vc & Hf & _ & _ & _ & _ & Hc & _).
  split.
  - destruct move_data as [| | | | l | d]; try done.
    + destruct l as [| ? [| ? ?]]; try done. simpl in Hf. congruence.
    + simpl in Hf. injection Hf as _ _ <-. rewrite Hc.
      unfold dict_get. by destruct (d !! "color").
  - unfold default_color. by rewrite even_index.
Qed.

Lemma stored_colour_witness :
  ∃ m, m ∈ _parse_moves [PList [PInt 3; PInt 3; PStr "white"]] ∧
       Parsed.color m = default_color 0.
Proof.
  exists (Parsed.mk "D4" (PStr "black") 1 3 3).
  assert (Hin : Parsed.mk "D4" (PStr "black") 1 3 3
                ∈ _parse_moves [PList [PInt 3; PInt 3; PStr "white"]])
    by (vm_compute; left).
  split; [exact Hin |].
  exact (proj1 (stored_colour [PList [PInt 3; PInt 3; PStr "white"]] 0
                  (PList [PInt 3; PInt 3; PStr "white"]) _
                  eq_refl Hin eq_refl)).
Defined.

Lemma length_parse_moves_from (i : nat) (moves_data : list pyval) :
  (length (parse_moves_from i moves_data) <= length moves_data)%nat.
Proof.
  revert i. induction moves_data as [| e rest IH]; intros i; simpl; [done |].
  destruct (parse_move i e); simpl; specialize (IH (S i)); lia.
Qed.

Lemma length_chars (s : string) : length (chars s) = String.length s.
Proof. induction s as [| c r IH]; simpl; congruence. Qed.

(** X10: in the summary [parse_game_state] returns, ["move_count"]
    counts the raw entries of the payload while ["moves"] holds the
    stored ones: the list is never longer than the count says. *)
Theorem stored_moves_within_count (str_of : pyval → string)
    (game_data : pyval) (game_state : GameInfo.t) :
  parse_game_state str_of game_data = Some game_state →
  0 <= len (GameInfo.moves game_state) <= GameInfo.move_count game_state.
Proof.
  unfold parse_game_state. destruct game_data as [| | | | | d]; try done.
  destruct (py_len _) as [k |] eqn:Hlen; [| done]. simpl.
  destruct (_extract_players str_of d) as [ps |]; [| done]. simpl.
  destruct (py_iter _) as [items |] eqn:Hiter; [| done]. simpl.
  intros [= <-]. simpl.
  assert (k = len items) as ->.
  { destruct (dict_get d "moves" (PList [])); simplify_eq/=; unfold len.
    - by rewrite length_chars.
    - done.
    - by rewrite length_fmap, length_map_to_list. }
  unfold _parse_moves, len.
  pose proof (length_parse_moves_from 0 items). lia.
Qed.

Lemma stored_moves_within_count_witness :
  ∃ game_state,
    parse_game_state (λ _, "")
      (PDict {[ "moves" := PList [PList [PInt 25; PInt 3]] ]}) = Some game_state ∧
    0 <= len (GameInfo.moves game_state) <= GameInfo.move_count game_state.
Proof.
  destruct (parse_game_state (λ _, "")
              (PDict {[ "moves" := PList [PList [PInt 25; PInt 3]] ]}))
    as [game_state |] eqn:Hp; [| by vm_compute in Hp].
  exists game_state. split; [reflexivity |].
  exact (stored_moves_within_count _ _ _ Hp).
Defined.

Lemma dict_set_nonempty (d : list (pyval * pyval)) (k v : pyval) :
  dict_set d k v ≠ [].
Proof. destruct d as [| [k' v'] rest]; simpl; [done |]. by destruct (key_eqb k' k). Qed.

Lemma players_of_list_raises (player_data : list pyval) :
  ∀ players, players_of_list player_data players = None →
    ∃ player, PDict player ∈ player_data ∧
      hashable (py_or (dict_get player "color" PNone)
                      (dict_get player "colour" PNone)) = false.
Proof.
  induction player_data as [| e rest IH]; intros players; simpl; [done |].
  assert (Hrest : ∀ acc, players_of_list rest acc = None →
            ∃ player, PDict player ∈ e :: rest ∧
              hashable (py_or (dict_get player "color" PNone)
                              (dict_get player "colour" PNone)) = false).
  { intros acc Hacc. destruct (IH acc Hacc) as (player & Hin & Hh).
    exists player. split; [by right | done]. }
  destruct e as [| | | | | player]; try apply Hrest.
  destruct (truthy _ && truthy _); [| apply Hrest].
  destruct (hashable _) eqn:Hh; [apply Hrest |].
  intros _. exists player. split; [left | done].
Qed.

Lemma players_of_list_grows (player_data : list pyval) :
  ∀ players ps, players ≠ [] →
    players_of_list player_data players = Some ps → ps ≠ [].
Proof.
  induction player_data as [| e rest IH]; intros players ps Hne; simpl.
  - by intros [= <-].
  - destruct e as [| | | | | player]; try by apply IH.
    destruct (truthy _ && truthy _); [| by apply IH].
    destruct (hashable _); [| done].
    apply IH, dict_set_nonempty.
Qed.

Lemma extract_players_not_list (str_of : pyval → string)
    (game_data : gmap string pyval) :
  (∀ player_data, game_data !! "players" ≠ Some (PList player_data)) →
  is_Some (_extract_players str_of game_data).
Proof.
  intros Hnot. unfold _extract_players.
  destruct (game_data !! "players") as [[| | | | l | pd] |] eqn:Hp; simpl;
    try by eexists.
  by destruct (Hnot l).
Qed.

(** X11: [_extract_players] never returns an empty dictionary: without
    usable player data it returns the two placeholder names.  It raises
    only when the players field is a list with a record whose colour is
    a list or an object, which cannot be a key. *)
Theorem extract_players_result (str_of : pyval → string)
    (game_data : gmap string pyval) :
  match _extract_players str_of game_data with
  | Some players =>
      players ≠ [] ∧
      (game_data !! "players" = None → players = placeholder_players)
  | None =>
      ∃ player_data player,
        game_data !! "players" = Some (PList player_data) ∧
        PDict player ∈ player_data ∧
        hashable (py_or (dict_get player "color" PNone)
                        (dict_get player "colour" PNone)) = false
  end.
Proof.
  unfold _extract_players.
  destruct (game_data !! "players") as [[| | | | l | pd] |] eqn:Hp; simpl;
    try (split; [done | done]).
  - destruct (players_of_list l []) as [ps |] eqn:Hl; simpl.
    + split; [by destruct ps | done].
    + apply players_of_list_raises in Hl as (player & Hin & Hh).
      by exists l, player.
  - split; [by destruct (players_of_dict str_of pd) | done].
Qed.

(** ** The handler of game updates *)

(** X12: a payload that is an object without a ["moves"] list, as an
    event reporting one move is, counts as a game of no moves: the
    handler runs an analysis pass on the empty list and sets the recorded
    count back to 0, whatever it was. *)
Theorem update_without_moves (str_of : pyval → string) (self : LiveOGSTutor)
    (d : gmap string pyval) (event_type : pyval) :
  d !! "moves" = None →
  (∀ player_data, d !! "players" ≠ Some (PList player_data)) →
  _handle_game_update str_of self (PDict d) event_type
  = (mkLiveOGSTutor (current_game_id self) 0 (tutoring_interval self), Some []).
Proof.
  intros Hmoves Hplayers.
  unfold _handle_game_update, parse_game_state, dict_get. rewrite Hmoves. simpl.
  destruct (extract_players_not_list str_of d Hplayers) as [ps ->]. simpl.
  unfold _should_provide_tutoring, len. simpl.
  by repeat case_bool_decide.
Qed.

Lemma update_without_moves_witness :
  _handle_game_update (λ _, "") (mkLiveOGSTutor None 40 5)
    (PDict {[ "move" := PList [PInt 3; PInt 3] ]}) (PStr "game/move")
  = (mkLiveOGSTutor None 0 5, Some []).
Proof.
  apply (update_without_moves (λ _, "") (mkLiveOGSTutor None 40 5)
           {[ "move" := PList [PInt 3; PInt 3] ]} (PStr "game/move")).
  - reflexivity.
  - intros player_data H. vm_compute in H. discriminate H.
Defined.

(** X13: once a game has more than five moves, a session whose updates
    each add fewer moves than the interval triggers no analysis pass at
    all, however many moves add up: the count the difference is taken
    from moves with every update. *)
Theorem slow_session_never_tutors (str_of : pyval → string)
    (events : list pyval) (counts : list Z) :
  Forall2 (λ game_data c, stored_count str_of game_data = Some c) events counts →
  ∀ self : LiveOGSTutor,
    slow (last_move_count self) (tutoring_interval self) counts →
    (handle_updates str_of self events).2 = replicate (length events) false.
Proof.
  induction 1 as [| game_data c events counts Hc _ IH]; intros self Hslow;
    [done |].
  destruct Hslow as (Hfive & Hdiff & Hrest).
  unfold stored_count in Hc.
  destruct (parse_game_state str_of game_data) as [game_state |] eqn:Hp;
    [| done].
  injection Hc as Hc. simpl.
  unfold _handle_game_update. rewrite Hp, Hc.
  unfold _should_provide_tutoring.
  rewrite (bool_decide_false (c - _ >= _)) by lia.
  rewrite (bool_decide_false (c <= 5)) by lia.
  specialize (IH (mkLiveOGSTutor (current_game_id self) c (tutoring_interval self))
                 Hrest).
  destruct (handle_updates str_of _ events) as [self'' passes].
  simpl in *. by rewrite IH.
Qed.

Lemma slow_session_never_tutors_witness :
  (handle_updates (λ _, "") (mkLiveOGSTutor None 5 5)
     [game_with_moves 6; game_with_moves 9; game_with_moves 13]).2
  = replicate 3 false.
Proof.
  apply (slow_session_never_tutors (λ _, "")
           [game_with_moves 6; game_with_moves 9; game_with_moves 13]
           [6; 9; 13]).
  - repeat constructor.
  - simpl. lia.
Defined.

(** X25: an update that parses triggers an analysis pass exactly when
    the stored moves are at most five or exceed the recorded count by the
    interval or more, and it records the new count and keeps the interval
    whether the pass ran or not. *)
Theorem update_policy (str_of : pyval → string) (self : LiveOGSTutor)
    (game_data event_type : pyval) (game_state : GameInfo.t) :
  parse_game_state str_of game_data = Some game_state →
  let c := len (GameInfo.moves game_state) in
  let r := _handle_game_update str_of self game_data event_type in
  (is_Some r.2 ↔ c - last_move_count self >= tutoring_interval self ∨ c <= 5) ∧
  (∀ moves, r.2 = Some moves → moves = GameInfo.moves game_state) ∧
  last_move_count r.1 = c ∧
  tutoring_interval r.1 = tutoring_interval self ∧
  current_game_id r.1 = current_game_id self.
Proof.
  intros Hp c r.
  pose proof (handle_game_update_parsed str_of self game_data event_type
                game_state Hp) as H.
  cbv zeta in H. subst r c.
  unfold _handle_game_update in *. rewrite Hp in *. simpl in *.
  destruct H as (Hiff & _ & _).
  repeat split; try done; try apply Hiff.
  intros moves. by destruct (_should_provide_tutoring self _); intros [= <-].
Qed.

Lemma update_policy_witness :
  ∃ game_state,
    parse_game_state (λ _, "") (game_with_moves 3) = Some game_state ∧
    last_move_count
      (_handle_game_update (λ _, "") (mkLiveOGSTutor None 40 5)
         (game_with_moves 3) (PStr "game/gamedata")).1
    = len (GameInfo.moves game_state).
Proof.
  destruct (parse_game_state (λ _, "") (game_with_moves 3))
    as [game_state |] eqn:Hp; [| by vm_compute in Hp].
  exists game_state. split; [reflexivity |].
  exact (proj1 (proj2 (proj2
           (update_policy (λ _, "") (mkLiveOGSTutor None 40 5)
              (game_with_moves 3) (PStr "game/gamedata") game_state Hp)))).
Defined.

(** ** The monitoring loop: the limit, the pongs and the callback *)

Section MonitorLoop.

Variable json_loads : string → option pyval.
Context {W : Type}.
Variable send : string → W → W * option Py.exn.
Variable callback : pyval → pyval → W → W * option Py.exn.

Lemma dispatch_count (message : ws_message) (st : loop_state) :
  message_count (dispatch json_loads send callback message st).1
  = message_count st.
Proof.
  unfold dispatch, acted, logged. by repeat case_match.
Qed.

Lemma process_message_count (message : ws_message) (st : loop_state) :
  message_count (process_message json_loads send callback message st).1
  = message_count st + 1.
Proof.
  unfold process_message.
  pose proof (dispatch_count message
                (mkLoop (message_count st + 1) (world st) (log st))) as Hd.
  destruct (dispatch _ _ _ _ _) as [st' [[] | e]]; simpl in *.
  - by case_bool_decide.
  - by destruct e.
Qed.

End MonitorLoop.

(** X14: the loop of [monitor_game] is left by [break] only after more
    than 100 frames were counted; until then every frame is consumed,
    whatever it holds and whatever the send or the callback raise. *)
Theorem monitor_loop_limit {W : Type}
    (json_loads : string → option pyval)
    (send : string → W → W * option Py.exn)
    (callback : pyval → pyval → W → W * option Py.exn)
    (inbox : list ws_message) (st : loop_state) :
  let r := monitor_loop json_loads send callback inbox st in
  (r.2 = true → 100 < message_count r.1 <= message_count st + len inbox) ∧
  (r.2 = false → message_count r.1 = message_count st + len inbox).
Proof.
  revert st. induction inbox as [| message rest IH]; intros st; simpl.
  - unfold len. simpl. split; [done | lia].
  - pose proof (process_message_count json_loads send callback message st)
      as Hcount.
    pose proof (process_message_stops_on_limit json_loads send callback message st)
      as Hstop.
    destruct (process_message _ _ _ message st) as [st' stop]. simpl in *.
    unfold len in *. simpl.
    destruct stop; simpl.
    + split; [| done]. intros _. specialize (Hstop eq_refl). lia.
    + destruct (IH st') as [IHt IHf]. split; intros Hr.
      * specialize (IHt Hr). lia.
      * specialize (IHf Hr). lia.
Qed.

(** X15: the limit is not applied to a frame whose handling raises: a
    run of binary frames and of event frames with a broken body is
    consumed to its end, however long it is, with one call to the logger
    per frame and no other effect. *)
Theorem unreadable_frames_never_stop {W : Type}
    (json_loads : string → option pyval)
    (send : string → W → W * option Py.exn)
    (callback : pyval → pyval → W → W * option Py.exn)
    (inbox : list ws_message) (st : loop_state) :
  Forall (unreadable json_loads) inbox →
  monitor_loop json_loads send callback inbox st
  = (mkLoop (message_count st + len inbox) (world st)
       (log st ++ (unreadable_entry <$> inbox)), false).
Proof.
  revert st. induction inbox as [| message rest IH]; intros st Hall.
  - simpl. unfold len. simpl. rewrite Z.add_0_r, app_nil_r. by destruct st.
  - apply Forall_cons in Hall as [Hm Hrest]. simpl.
    assert (Hstep : process_message json_loads send callback message st
              = (mkLoop (message_count st + 1) (world st)
                   (log st ++ [unreadable_entry message]), false)).
    { unfold process_message, dispatch. destruct message as [s | b]; [| done].
      destruct Hm as [H42 Hbad]. by rewrite H42, Hbad. }
    rewrite Hstep, IH by done. simpl.
    unfold len. simpl. rewrite <- app_assoc. do 2 f_equal. lia.
Qed.

Lemma unreadable_frames_never_stop_witness :
  monitor_loop (λ _, None) record_send record_callback
    (replicate 150 (TextFrame "42oops")) (mkLoop 0 [] [])
  = (mkLoop (0 + len (replicate 150 (TextFrame "42oops"))) []
       ([] ++ (unreadable_entry <$> replicate 150 (TextFrame "42oops"))), false).
Proof.
  apply (unreadable_frames_never_stop (λ _, None) record_send record_callback).
  apply Forall_replicate. split; reflexivity.
Defined.

Section RecordedEffects.

Variable json_loads : string → option pyval.

Lemma process_message_effects (message : ws_message)
    (st : @loop_state (list effect)) :
  ∃ new,
    world (process_message json_loads record_send record_callback message st).1
    = world st ++ new ∧
    sent_frames new = (if is_ping message then ["3"] else []) ∧
    Forall (allowed_effect json_loads message) new.
Proof.
  unfold process_message, dispatch.
  destruct message as [s | b]; [| exists []; by rewrite app_nil_r].
  remember (Py.str_drop 2 s) as body eqn:Hbody.
  unfold is_ping. destruct (String.prefix "42" s) eqn:H42.
  - destruct (json_loads body) as [[| | | | [| t [| d rest]] |] |] eqn:Hj;
      try (exists []; rewrite app_nil_r; simpl;
           repeat case_bool_decide; by simpl).
    destruct (is_game_update t) eqn:Hup.
    + exists [Called d t]. simpl. case_bool_decide; simpl; (split; [done |]);
        (split; [done |]); repeat constructor; try done;
        exists s, rest; by subst body.
    + exists []. rewrite app_nil_r. simpl. case_bool_decide; by simpl.
  - destruct (String.prefix "2" s) eqn:H2.
    + exists [Sent "3"]. simpl. case_bool_decide; simpl; (split; [done |]);
        (split; [done |]); repeat constructor; simpl; by rewrite ?H42, ?H2.
    + exists []. rewrite app_nil_r. simpl. case_bool_decide; by simpl.
Qed.

Lemma sent_frames_app (w1 w2 : list effect) :
  sent_frames (w1 ++ w2) = sent_frames w1 ++ sent_frames w2.
Proof. apply omap_app. Qed.

Lemma monitor_loop_pongs (inbox : list ws_message) :
  ∀ st : @loop_state (list effect),
    message_count st + len inbox <= 100 →
    sent_frames
      (world (monitor_loop json_loads record_send record_callback inbox st).1)
    = sent_frames (world st)
      ++ replicate (length (filter (λ m, is_ping m = true) inbox)) "3".
Proof.
  induction inbox as [| message rest IH]; intros st Hroom; simpl.
  - by rewrite app_nil_r.
  - destruct (process_message_effects message st) as (new & Hw & Hsent & _).
    pose proof (process_message_count json_loads record_send record_callback
                  message st) as Hcount.
    pose proof (process_message_stops_on_limit json_loads record_send
                  record_callback message st) as Hstop.
    destruct (process_message _ _ _ message st) as [st' stop]. simpl in *.
    unfold len in *. simpl in Hroom.
    destruct stop; [specialize (Hstop eq_refl); lia |].
    rewrite IH by (unfold len; lia).
    rewrite Hw, sent_frames_app, Hsent, <- app_assoc. f_equal.
    destruct (is_ping message) eqn:Hping.
    + by rewrite filter_cons_True by done.
    + rewrite filter_cons_False; [done |]. by rewrite Hping.
Qed.

End RecordedEffects.

(** X16: on a connection that records what is done, the loop sends
    nothing but the pong ["3"], and only for a ping frame, and it calls
    the callback only with the type and payload of a ["game/move"] or
    ["game/gamedata"] event decoded from a frame of the inbox. *)
Theorem monitor_loop_only_pongs_and_updates
    (json_loads : string → option pyval) (inbox : list ws_message)
    (st : @loop_state (list effect)) :
  ∃ new,
    world (monitor_loop json_loads record_send record_callback inbox st).1
    = world st ++ new ∧
    Forall (λ e, ∃ message, message ∈ inbox ∧
                            allowed_effect json_loads message e) new.
Proof.
  revert st. induction inbox as [| message rest IH]; intros st; simpl.
  - exists []. by rewrite app_nil_r.
  - destruct (process_message_effects json_loads message st) as (new1 & Hw1 & _ & Hok1).
    destruct (process_message _ _ _ message st) as [st' stop]. simpl in Hw1.
    assert (Hhere : Forall (λ e, ∃ m, m ∈ message :: rest ∧
                                      allowed_effect json_loads m e) new1).
    { eapply Forall_impl; [exact Hok1 |]. intros e He.
      exists message. split; [left | done]. }
    destruct stop; simpl.
    + by exists new1.
    + destruct (IH st') as (new2 & Hw2 & Hok2).
      exists (new1 ++ new2). rewrite Hw2, Hw1, <- app_assoc. split; [done |].
      apply Forall_app. split; [done |].
      eapply Forall_impl; [exact Hok2 |]. intros e (m & Hm & He).
      exists m. split; [by right | done].
Qed.

(** X17: [monitor_game] on an inbox of at most 100 frames sends the
    subscription frame first and then exactly one pong per ping frame,
    and nothing else. *)
Theorem monitor_game_sends (json_loads : string → option pyval)
    (game_id : string) (inbox : list ws_message) (ending : option Py.exn) :
  len inbox <= 100 →
  ∃ w,
    (monitor_game json_loads record_send record_callback (Some []) game_id
       inbox ending).1 = Some w ∧
    sent_frames w
    = game_connect_msg game_id
      :: replicate (length (filter (λ m, is_ping m = true) inbox)) "3".
Proof.
  intros Hlen. unfold monitor_game. simpl.
  pose proof (monitor_loop_pongs json_loads inbox
                (mkLoop 0 [Sent (game_connect_msg game_id)]
                   [LogMonitoring game_id; LogSubscribed game_id])) as Hp.
  simpl in Hp.
  destruct (monitor_loop _ _ _ inbox _) as [st stop]. simpl in *.
  exists (world st). split; [done |]. apply Hp. lia.
Qed.

Lemma monitor_game_sends_witness :
  ∃ w,
    (monitor_game (λ _, None) record_send record_callback (Some []) "7"
       [TextFrame "2"; TextFrame "40"; TextFrame "2probe"] None).1 = Some w ∧
    sent_frames w
    = game_connect_msg "7"
      :: replicate (length (filter (λ m, is_ping m = true)
                              [TextFrame "2"; TextFrame "40"; TextFrame "2probe"]))
           "3".
Proof.
  apply (monitor_game_sends (λ _, None) "7"
           [TextFrame "2"; TextFrame "40"; TextFrame "2probe"] None).
  unfold len. simpl. lia.
Defined.

(** ** The pattern recogniser and the move analyser *)

Lemma find_tactical_entries (b : board) (m : Move) (ps : list Pattern) :
  ∀ (found : list FoundPattern) (g : tape),
    ∃ hits, hits `sublist_of` ps ∧
            (find_tactical b m ps found g).1 = found ++ (tactical_entry m <$> hits).
Proof.
  induction ps as [| p rest IH]; intros found g.
  - exists []. by rewrite app_nil_r.
  - rewrite find_tactical_cons.
    destruct (Qltb (random_random g).1 (3 # 10)).
    + destruct (IH (found ++ [tactical_entry m p]) (random_random g).2)
        as (hits & Hsub & Heq).
      exists (p :: hits). split; [by apply sublist_skip |].
      unfold tactical_entry in *. rewrite Heq, <- app_assoc. done.
    + destruct (IH found (random_random g).2) as (hits & Hsub & Heq).
      exists hits. split; [by apply sublist_cons | done].
Qed.

Lemma find_strategic_entries (b : board) (ps : list Pattern) :
  ∀ (found : list FoundPattern) (g : tape),
    ∃ hits, hits `sublist_of` ps ∧
            (find_strategic b ps found g).1 = found ++ (strategic_entry <$> hits).
Proof.
  induction ps as [| p rest IH]; intros found g.
  - exists []. by rewrite app_nil_r.
  - rewrite find_strategic_cons.
    destruct (Qltb (random_random g).1 (2 # 10)).
    + destruct (IH (found ++ [strategic_entry p]) (random_random g).2)
        as (hits & Hsub & Heq).
      exists (p :: hits). split; [by apply sublist_skip |].
      unfold strategic_entry in *. rewrite Heq, <- app_assoc. done.
    + destruct (IH found (random_random g).2) as (hits & Hsub & Heq).
      exists hits. split; [by apply sublist_cons | done].
Qed.

(** X18: whatever is drawn, the list [find_patterns] returns is made of
    patterns of the two catalogues, each at most once and in catalogue
    order, the tactical ones first; a tactical entry carries the
    coordinate of the move and the urgency "high" exactly for a beginner
    pattern, a strategic entry no location and the urgency "medium". *)
Theorem find_patterns_entries (self : PatternRecognizer) (b : board)
    (m : Move) (g : tape) :
  ∃ tactical strategic,
    tactical `sublist_of` tactical_patterns self ∧
    strategic `sublist_of` strategic_patterns self ∧
    (find_patterns self b m g).1
    = (tactical_entry m <$> tactical) ++ (strategic_entry <$> strategic).
Proof.
  rewrite find_patterns_unfold.
  destruct (find_tactical_entries b m (tactical_patterns self) [] g)
    as (ts & Hts & ->).
  destruct (find_strategic_entries b (strategic_patterns self)
              ([] ++ (tactical_entry m <$> ts))
              (find_tactical b m (tactical_patterns self) [] g).2)
    as (ss & Hss & ->).
  by exists ts, ss.
Qed.

(** X19: [_generate_learning_points] returns three points for a corner,
    center or approach move, and they do not depend on the phase: the
    advice on the phase is the fourth point, which the cut to three
    drops.  For any other type the advice on the phase is the only
    point. *)
Theorem learning_points_cut (m : Move) (move_type : string) (p p' : GamePhase) :
  (move_type ∈ ["corner"; "center"; "approach"] →
     length (_generate_learning_points m move_type p) = 3%nat ∧
     _generate_learning_points m move_type p
     = _generate_learning_points m move_type p') ∧
  (move_type ∉ ["corner"; "center"; "approach"] →
     length (_generate_learning_points m move_type p) = 1%nat ∧
     (p ≠ p' → _generate_learning_points m move_type p
               ≠ _generate_learning_points m move_type p')).
Proof.
  unfold _generate_learning_points. split; intros Ht.
  - repeat (apply elem_of_cons in Ht as [-> | Ht]; [by destruct p, p' |]).
    by apply elem_of_nil in Ht.
  - rewrite !bool_decide_false by (intros ->; apply Ht; set_solver).
    split; [done |]. by destruct p, p'.
Qed.

Lemma learning_points_cut_witness :
  length (_generate_learning_points (mkMove 3 3 "black" 1) "corner" ENDGAME) = 3%nat ∧
  _generate_learning_points (mkMove 3 3 "black" 1) "corner" ENDGAME
  = _generate_learning_points (mkMove 3 3 "black" 1) "corner" OPENING.
Proof.
  apply (learning_points_cut (mkMove 3 3 "black" 1) "corner" ENDGAME OPENING).
  left.
Defined.

Lemma random_choice_in {A} (options : list A) (d : A) (g : tape) :
  options ≠ [] → (random_choice options d g).1 ∈ options.
Proof.
  intros Hne. unfold random_choice, next_word, mbind, rand_bind, mret, rand_ret.
  simpl. apply list_elem_of_In, nth_In, Nat.mod_upper_bound.
  by destruct options.
Qed.

Lemma classify_move_cases (m : Move) (b : board) (p : GamePhase) (g : tape) :
  (_is_corner_area m = true → (_classify_move m b p g).1 = "corner") ∧
  (_is_corner_area m = false → _is_center_area m = true →
     (_classify_move m b p g).1 = "center") ∧
  (_classify_move m b p g).1 ∈
    match p with
    | OPENING => ["corner"; "center"; "approach"; "extension"]
    | MIDDLE_GAME =>
        ["corner"; "center"; "attack"; "defense"; "invasion"; "connection"]
    | ENDGAME => ["corner"; "center"; "defense"; "territorial"; "endgame"]
    end.
Proof.
  unfold _classify_move, _is_corner_area, _is_center_area.
  destruct (bool_decide ((x m <= 5 ∨ x m >= 13) ∧ (y m <= 5 ∨ y m >= 13)));
    [| destruct (bool_decide (7 <= x m <= 11 ∧ 7 <= y m <= 11))].
  - repeat split; try done.
    destruct p; apply (bool_decide_unpack _); by vm_compute.
  - repeat split; try done.
    destruct p; apply (bool_decide_unpack _); by vm_compute.
  - repeat split; try done.
    destruct p;
      match goal with
      | |- (random_choice ?l ?d g).1 ∈ _ =>
          pose proof (random_choice_in l d g ltac:(done)) as Hin
      end;
      repeat (apply elem_of_cons in Hin as [-> | Hin];
              [apply (bool_decide_unpack _); by vm_compute |]);
      by apply elem_of_nil in Hin.
Qed.

(** X20: [_classify_move] answers "corner" for every move of a corner
    area and "center" for every move of the central area, whatever is
    drawn; the two areas do not meet; and in each phase the answer is one
    of the handful of types listed for it, "corner" being among those
    drawn for an opening move outside the corners. *)
Theorem classify_move_result (m : Move) (b : board) (p : GamePhase) (g : tape) :
  (_is_corner_area m = true → (_classify_move m b p g).1 = "corner") ∧
  (_is_center_area m = true → (_classify_move m b p g).1 = "center") ∧
  ¬ (_is_corner_area m = true ∧ _is_center_area m = true) ∧
  (_classify_move m b p g).1 ∈
    match p with
    | OPENING => ["corner"; "center"; "approach"; "extension"]
    | MIDDLE_GAME =>
        ["corner"; "center"; "attack"; "defense"; "invasion"; "connection"]
    | ENDGAME => ["corner"; "center"; "defense"; "territorial"; "endgame"]
    end.
Proof.
  destruct (classify_move_cases m b p g) as (Hcorner & Hcenter & Hin).
  assert (Hdisjoint : ¬ (_is_corner_area m = true ∧ _is_center_area m = true)).
  { unfold _is_corner_area, _is_center_area.
    intros [?%bool_decide_eq_true ?%bool_decide_eq_true]. lia. }
  repeat split; try done.
  intros Hc. apply Hcenter; [| done].
  destruct (_is_corner_area m) eqn:Hk; [| done]. by destruct Hdisjoint.
Qed.

Lemma classify_move_result_witness :
  (_classify_move (mkMove 9 9 "black" 1) ∅ ENDGAME (λ _, 1%N)).1 = "center".
Proof.
  apply (classify_move_result (mkMove 9 9 "black" 1) ∅ ENDGAME (λ _, 1%N)).
  reflexivity.
Defined.

Lemma analyze_move_fields (self : MoveAnalyzer) (m : Move) (b : board)
    (p : GamePhase) (g : tape) :
  let a := (analyze_move self m b p g).1 in
  let g1 := (_classify_move m b p g).2 in
  let g2 := (_estimate_territorial_value m p g1).2 in
  let g3 := (_estimate_influence_value m p g2).2 in
  MoveAnalysis.coordinate a = to_coords m ∧
  MoveAnalysis.type a = (_classify_move m b p g).1 ∧
  MoveAnalysis.description a
  = default "Positional move" (move_types self !! MoveAnalysis.type a) ∧
  MoveAnalysis.phase_appropriateness a = _rate_for_phase (MoveAnalysis.type a) p ∧
  MoveAnalysis.territorial_value a = (_estimate_territorial_value m p g1).1 ∧
  MoveAnalysis.influence_value a = (_estimate_influence_value m p g2).1 ∧
  MoveAnalysis.safety_rating a = (_rate_safety m b g3).1 ∧
  MoveAnalysis.learning_points a
  = _generate_learning_points m (MoveAnalysis.type a) p.
Proof.
  unfold analyze_move, mbind, rand_bind, mret, rand_ret. cbv zeta.
  destruct (_classify_move m b p g) as [t g1]. cbn [fst snd].
  destruct (_estimate_territorial_value m p g1) as [tv g2]. cbn [fst snd].
  destruct (_estimate_influence_value m p g2) as [iv g3]. cbn [fst snd].
  by destruct (_rate_safety m b g3) as [sr g4].
Qed.

(** X21: the rating [analyze_move] gives a move is never "premature" and
    never "risky", the two entries of the table no type drawn for their
    phase reaches; in the opening it is never the default "neutral"
    either: it is one of the few ratings listed here for each phase. *)
Theorem analysis_rating (self : MoveAnalyzer) (m : Move) (b : board)
    (p : GamePhase) (g : tape) :
  MoveAnalysis.phase_appropriateness (analyze_move self m b p g).1 ∈
    match p with
    | OPENING => ["excellent"; "good"; "questionable"]
    | MIDDLE_GAME => ["excellent"; "good"; "slow"; "neutral"]
    | ENDGAME => ["excellent"; "usually small"; "neutral"]
    end.
Proof.
  destruct (analyze_move_fields self m b p g) as (_ & Ht & _ & -> & _).
  rewrite Ht.
  destruct (classify_move_cases m b p g) as (_ & _ & Hin).
  destruct p;
    repeat (apply elem_of_cons in Hin as [-> | Hin];
            [apply (bool_decide_unpack _); by vm_compute |]);
    by apply elem_of_nil in Hin.
Qed.

(** X22: the description of an analysis is the sentence of [move_types]
    for the type of the move, and the fallback "Positional move" for the
    types "territorial" and "endgame", which an endgame move can be given
    and the table does not list. *)
Theorem analysis_description (m : Move) (b : board) (p : GamePhase) (g : tape) :
  let a := (analyze_move MoveAnalyzer__init__ m b p g).1 in
  (MoveAnalysis.type a ∈ ["territorial"; "endgame"] →
     p = ENDGAME ∧ MoveAnalysis.description a = "Positional move") ∧
  (MoveAnalysis.type a ∉ ["territorial"; "endgame"] →
     MoveAnalysis.description a ≠ "Positional move").
Proof.
  destruct (analyze_move_fields MoveAnalyzer__init__ m b p g)
    as (_ & Ht & Hd & _).
  cbv zeta. rewrite Hd, Ht.
  destruct (classify_move_cases m b p g) as (_ & _ & Hin).
  split; intros Hty.
  - destruct p;
      repeat (apply elem_of_cons in Hin as [Heq | Hin];
              [rewrite Heq in Hty |- *;
               first [ by split; vm_compute
                     | exfalso; revert Hty;
                       apply (bool_decide_unpack _); by vm_compute ] |]);
      by apply elem_of_nil in Hin.
  - destruct p;
      repeat (apply elem_of_cons in Hin as [Heq | Hin];
              [rewrite Heq in Hty |- *;
               first [ by vm_compute
                     | exfalso; apply Hty;
                       apply (bool_decide_unpack _); by vm_compute ] |]);
      by apply elem_of_nil in Hin.
Qed.

Lemma analysis_description_witness :
  MoveAnalysis.description
    (analyze_move MoveAnalyzer__init__ (mkMove 9 3 "black" 130) ∅ ENDGAME
       (λ _, 1%N)).1 = "Positional move".
Proof.
  apply (analysis_description (mkMove 9 3 "black" 130) ∅ ENDGAME (λ _, 1%N)).
  apply (bool_decide_unpack _). by vm_compute.
Defined.

Lemma length_omap_filter {A B} (f : A → option B) (P : A → Prop)
    `{∀ a, Decision (P a)} (l : list A) :
  (∀ a, is_Some (f a) ↔ P a) →
  length (omap f l) = length (filter P l).
Proof.
  intros Hf. induction l as [| a rest IH]; [done |].
  change (omap f (a :: rest))
    with (match f a with Some b => b :: omap f rest | None => omap f rest end).
  destruct (f a) as [b |] eqn:Hfa.
  - rewrite filter_cons_True by (apply Hf; by rewrite Hfa). simpl. by rewrite IH.
  - rewrite filter_cons_False; [done |].
    intros HP. apply Hf in HP. rewrite Hfa in HP. by destruct HP.
Qed.

(** X23: [_generate_tactical_advice] gives one line per tactical pattern
    found, strategic patterns giving none, and a single general line when
    no tactical pattern was found: the advice is never empty. *)
Theorem tactical_advice_lines (patterns : list FoundPattern) :
  length (_generate_tactical_advice patterns)
  = Nat.max 1 (length (filter (λ e, type e = "tactical") patterns)).
Proof.
  unfold _generate_tactical_advice.
  rewrite <- (length_omap_filter
                (λ pattern_info : FoundPattern,
                   if bool_decide (type pattern_info = "tactical") then
                     Some ("🔍 " +:+ pattern_name (pattern pattern_info) +:+ ": "
                             +:+ pattern_advice (pattern pattern_info))
                   else None)).
  - destruct (omap _ patterns); simpl; lia.
  - intros e. case_bool_decide as He.
    + split; [done | by eauto].
    + split; [by intros [? ?] | by intros ?].
Qed.

Lemma tactical_advice_nonempty (patterns : list FoundPattern) :
  (1 <= length (_generate_tactical_advice patterns))%nat.
Proof.
  unfold _generate_tactical_advice. destruct (omap _ patterns); simpl; lia.
Qed.

Lemma length_learning_points (m : Move) (move_type : string) (p : GamePhase) :
  (1 <= length (_generate_learning_points m move_type p) <= 3)%nat.
Proof.
  unfold _generate_learning_points. rewrite length_take, length_app. simpl.
  repeat case_bool_decide; simpl; lia.
Qed.

Lemma length_questions (p : GamePhase) (patterns : list FoundPattern)
    (joseki_info : option JosekiMatch) :
  length (_generate_questions p patterns joseki_info)
  = (2 + (if patterns is [] then 0 else 1)
       + (if joseki_info is Some _ then 1 else 0))%nat.
Proof.
  unfold _generate_questions.
  destruct p, patterns, joseki_info; simpl; rewrite ?length_app; simpl; lia.
Qed.

(** X24: the analysis of a position with at least one move.  It is about
    the last move of the history and carries the counter as its move
    number; it has between one and three learning points, two values
    between 1 and 10, one of the five safety ratings, three lines of
    strategic advice, at least one line of tactical advice, and two
    questions on the phase plus one when a pattern was found and one when
    a joseki was. *)
Theorem analysis_of_a_position (self : EnhancedGoTutor) (g : tape) :
  game_history self ≠ [] →
  ∃ a,
    (analyze_current_position self g).1 = inr a ∧
    Some (Analysis.recent_move a) = last (game_history self) ∧
    Analysis.move_number a = move_count self ∧
    (1 <= length (MoveAnalysis.learning_points (Analysis.move_analysis a)) <= 3)%nat ∧
    1 <= MoveAnalysis.territorial_value (Analysis.move_analysis a) <= 10 ∧
    1 <= MoveAnalysis.influence_value (Analysis.move_analysis a) <= 10 ∧
    MoveAnalysis.safety_rating (Analysis.move_analysis a)
      ∈ ["very safe"; "safe"; "neutral"; "risky"; "dangerous"] ∧
    length (Analysis.strategic_advice a) = 3%nat ∧
    (1 <= length (Analysis.tactical_advice a))%nat ∧
    length (Analysis.questions a)
    = (2 + (if Analysis.patterns_found a is [] then 0 else 1)
         + (if Analysis.joseki_info a is Some _ then 1 else 0))%nat.
Proof.
  intros Hne. unfold analyze_current_position.
  destruct (last (game_history self)) as [recent |] eqn:Hlast;
    [| by apply last_None in Hlast].
  unfold mbind, rand_bind, mret, rand_ret.
  destruct (find_patterns _ _ recent g) as [patterns g1].
  pose proof (analyze_move_fields MoveAnalyzer__init__ recent
                (_create_board_state self) (_determine_phase self) g1) as Hf.
  destruct (analyze_move _ recent _ _ g1) as [ma g2].
  cbv zeta in Hf. cbn [fst snd] in Hf.
  destruct Hf as (_ & _ & _ & _ & Htv & Hiv & Hsr & Hlp).
  eexists. split; [reflexivity |]. simpl.
  split; [done |]. split; [done |].
  split; [rewrite Hlp; apply length_learning_points |].
  split.
  { rewrite Htv.
    match goal with
    | |- context [_estimate_territorial_value ?mv ?ph ?tp] =>
        destruct (estimate_territorial_value_jitter mv ph tp) as (base & _ & ->)
    end. lia. }
  split.
  { rewrite Hiv.
    match goal with
    | |- context [_estimate_influence_value ?mv ?ph ?tp] =>
        destruct (estimate_influence_value_jitter mv ph tp) as (base & _ & ->)
    end. lia. }
  split; [rewrite Hsr; by apply random_choice_in |].
  split; [by destruct (_determine_phase self) |].
  split; [apply tactical_advice_nonempty |].
  apply length_questions.
Qed.

Lemma analysis_of_a_position_witness :
  ∃ a,
    (analyze_current_position
       (mkEnhancedGoTutor JosekiDatabase__init__ PatternRecognizer__init__
          [mkMove 3 3 "black" 1] 1) (λ _, 0%N)).1 = inr a ∧
    Analysis.move_number a = 1.
Proof.
  destruct (analysis_of_a_position
              (mkEnhancedGoTutor JosekiDatabase__init__ PatternRecognizer__init__
                 [mkMove 3 3 "black" 1] 1) (λ _, 0%N))
    as (a & Ha & _ & Hn & _); [discriminate |].
  exists a. split; [exact Ha | exact Hn].
Defined.
